(** * GDAX order book scraper: a shallow embedding of [gdax_order_book_scraper.py]

    The scraper polls the order book of each tracked product, keeps the
    snapshots in a buffer and writes them to CSV files every
    [SCRAPES_PER_CSV] iterations.

    The embedding follows the Python source method by method.

    - Python values are [pyval]; list objects are mutable and live in a heap
      of locations, since [prepare_order_book_row] changes rows in place.
    - A method is a computation [M A]: a function from the state (the
      attributes of the scraper object and the world around it) to a result
      (a value or a raised exception) and a new state.
    - What the program does to the outside is recorded as a trace of events
      ([Sleep], [Makedirs], [Open], [WriteRow]); the content of a file is read
      back from the trace. The trace also marks the calls of
      [write_order_book_csv] ([Flush]).
    - What the outside does to the program is an [environment]: the replies of
      the exchange, the readings of the clock, and the two renderings of a
      time as text.

    Not modelled: logging, the CSV encoding of a row (a file is the list of
    the rows given to [writerow]), errors of the operating system on
    [makedirs] and [open], and the rounding of floating-point numbers (times
    are rationals). *)

From Stdlib Require Import QArith Qround Lqa.
From stdpp Require Import gmap strings list pretty.

Local Open Scope string_scope.
Local Open Scope list_scope.

(** ** Python values *)

(** Location of a list object in the heap. *)
Definition loc := nat.

(** Exceptions the program can meet. *)
Inductive exn :=
  | ConnectionError
  | JSONDecodeError
  | TypeError
  | KeyError
  | IndexError
  | AttributeError
  | CsvError
  | OtherError (name : string).

(** A decoded JSON document, as the exchange sends it. *)
#[warnings="-register-all"]
Inductive json :=
  | JNull
  | JBool (b : bool)
  | JInt (n : Z)
  | JFloat (lit : string)
  | JStr (s : string)
  | JArray (items : list json)
  | JObject (members : list (string * json)).

(** Python values. A list is a reference: two values [VList l] with the same
    [l] are the same object. Tuples and strings cannot change; the
    dictionaries of this program are never changed once built, so they are
    values too, with their keys in insertion order. *)
#[warnings="-register-all"]
Inductive pyval :=
  | VNone
  | VBool (b : bool)
  | VInt (n : Z)
  | VFloat (lit : string)
  | VStr (s : string)
  | VList (l : loc)
  | VTuple (items : list pyval)
  | VDict (entries : list (string * pyval)).

(** A subscript: [obj['bids']] or [obj[0]]. *)
Inductive key :=
  | KStr (s : string)
  | KInt (i : Z).

(** [d[k] = v] on a dictionary with insertion order: a known key keeps its
    place. *)
Fixpoint dict_set {V : Type} (d : list (string * V)) (k : string) (v : V)
  : list (string * V) :=
  match d with
  | [] => [(k, v)]
  | (k', v') :: d' =>
      if String.eqb k k' then (k', v) :: d' else (k', v') :: dict_set d' k v
  end.

(** [d[k]], [None] when the key is missing. *)
Fixpoint dict_get {V : Type} (d : list (string * V)) (k : string) : option V :=
  match d with
  | [] => None
  | (k', v) :: d' => if String.eqb k k' then Some v else dict_get d' k
  end.

(** The keys, in the order [for k in d] visits them. *)
Definition dict_keys {V : Type} (d : list (string * V)) : list string :=
  map fst d.

(** [seq[i]] on a tuple or on the items of a list, with Python's negative
    indices. *)
Definition seq_index {A : Type} (items : list A) (i : Z) : option A :=
  let n := Z.of_nat (length items) in
  let j := if (i <? 0)%Z then (i + n)%Z else i in
  if ((0 <=? j)%Z && (j <? n)%Z)%bool then items !! Z.to_nat j else None.

(** The one-character strings of a string. *)
Fixpoint string_chars (s : string) : list pyval :=
  match s with
  | EmptyString => []
  | String c s' => VStr (String c EmptyString) :: string_chars s'
  end.

(** [json.loads]: every array becomes a new list object, allocated at the
    next free location [n]; an object becomes a dictionary, a later member
    replacing an earlier one with the same key. *)
Fixpoint loads (j : json) (h : gmap loc (list pyval)) (n : loc)
  : pyval * (gmap loc (list pyval) * loc) :=
  match j with
  | JNull => (VNone, (h, n))
  | JBool b => (VBool b, (h, n))
  | JInt z => (VInt z, (h, n))
  | JFloat lit => (VFloat lit, (h, n))
  | JStr s => (VStr s, (h, n))
  | JArray items =>
      let '(vs, (h', n')) :=
        (fix loads_items (js : list json) h n :=
           match js with
           | [] => ([], (h, n))
           | j :: js' =>
               let '(v, (h1, n1)) := loads j h n in
               let '(vs, (h2, n2)) := loads_items js' h1 n1 in
               (v :: vs, (h2, n2))
           end) items h n in
      (VList n', (<[n' := vs]> h', S n'))
  | JObject members =>
      let '(d, (h', n')) :=
        (fix loads_members (ms : list (string * json)) d h n :=
           match ms with
           | [] => (d, (h, n))
           | (k, j) :: ms' =>
               let '(v, (h1, n1)) := loads j h n in
               loads_members ms' (dict_set d k v) h1 n1
           end) members [] h n in
      (VDict d, (h', n'))
  end.

(** ** Times and paths *)

(** An aware UTC [datetime], given by its microseconds since the epoch. *)
Definition datetime := Z.

(** [datetime.timestamp()]: seconds since the epoch. *)
Definition timestamp (t : datetime) : Q := t # 1000000.

(** Python's [%] on numbers, for a positive divisor: [x - m * floor (x / m)]. *)
Definition Qmod (x m : Q) : Q := x - m * inject_Z (Qfloor (x / m)).

(** [s.endswith('/')]. *)
Fixpoint ends_with_sep (s : string) : bool :=
  match s with
  | EmptyString => false
  | String c EmptyString => String.eqb (String c EmptyString) "/"
  | String _ s' => ends_with_sep s'
  end.

(** [os.path.join(a, b)] on a POSIX system. *)
Definition path_join (a b : string) : string :=
  if String.prefix "/" b then b
  else if (String.eqb a EmptyString || ends_with_sep a)%bool then a +:+ b
  else a +:+ "/" +:+ b.

(** ** The world around the program *)

(** The events of a trace: what the program does to the outside, and [Flush],
    which marks a call of [write_order_book_csv] and is no effect of its
    own. *)
Inductive event :=
  | Sleep (seconds : Q)
  | Makedirs (path : string)
  | Open (path : string)
  | WriteRow (path : string) (row : list pyval)
  | Flush.

(** What one request to the exchange comes back with. *)
Inductive reply :=
  | Reply (body : json)
  | Failure (e : exn).

(** The outside, as the program sees it. [http_get n product] is the outcome
    of the [n]-th request, [utcnow n] and [time_time n] the [n]-th reading of
    the clock by [datetime.now] and by [time.time]. *)
Record environment := {
  isoformat : string -> datetime -> string;
  str_float : Q -> string;
  http_get : nat -> string -> reply;
  utcnow : nat -> datetime;
  time_time : nat -> Q;
}.

(** A snapshot is [order_book_data_all]: product to order book. *)
Definition snapshot := list (string * pyval).

(** The attributes of the scraper object, then the world: the heap of list
    objects with its next free location, the number of requests sent and of
    clock readings taken, and the trace. *)
Record state := mkState {
  products : list string;
  order_book_data : list snapshot;
  current_time : datetime;
  csv_directory : string;
  heap : gmap loc (list pyval);
  next_loc : loc;
  requests : nat;
  clock_reads : nat;
  output : list event;
}.

Definition set_order_book_data (b : list snapshot) (s : state) : state :=
  mkState (products s) b (current_time s) (csv_directory s)
          (heap s) (next_loc s) (requests s) (clock_reads s) (output s).

Definition set_current_time (t : datetime) (s : state) : state :=
  mkState (products s) (order_book_data s) t (csv_directory s)
          (heap s) (next_loc s) (requests s) (clock_reads s) (output s).

Definition set_products (ps : list string) (s : state) : state :=
  mkState ps (order_book_data s) (current_time s) (csv_directory s)
          (heap s) (next_loc s) (requests s) (clock_reads s) (output s).

Definition set_heap (h : gmap loc (list pyval)) (n : loc) (s : state) : state :=
  mkState (products s) (order_book_data s) (current_time s) (csv_directory s)
          h n (requests s) (clock_reads s) (output s).

Definition set_requests (n : nat) (s : state) : state :=
  mkState (products s) (order_book_data s) (current_time s) (csv_directory s)
          (heap s) (next_loc s) n (clock_reads s) (output s).

Definition set_clock_reads (n : nat) (s : state) : state :=
  mkState (products s) (order_book_data s) (current_time s) (csv_directory s)
          (heap s) (next_loc s) (requests s) n (output s).

Definition set_output (o : list event) (s : state) : state :=
  mkState (products s) (order_book_data s) (current_time s) (csv_directory s)
          (heap s) (next_loc s) (requests s) (clock_reads s) o.

(** ** Computations *)

Inductive result (A : Type) :=
  | Returns (a : A)
  | Raises (e : exn).
Arguments Returns {A} a.
Arguments Raises {A} e.

Definition M (A : Type) : Type := state -> result A * state.

Definition ret {A : Type} (a : A) : M A := fun s => (Returns a, s).

Definition raise {A : Type} (e : exn) : M A := fun s => (Raises e, s).

Definition bind {A B : Type} (m : M A) (k : A -> M B) : M B :=
  fun s =>
    match m s with
    | (Returns a, s') => k a s'
    | (Raises e, s') => (Raises e, s')
    end.

Notation "'let*' x ':=' m 'in' k" := (bind m (fun x => k))
  (at level 10, x name, m at level 100, k at level 200).
Notation "m '>>' k" := (bind m (fun _ => k))
  (at level 65, right associativity).

(** [try: body except <the exceptions caught>: handler]. *)
Definition try_except {A : Type} (body : M A) (caught : exn -> bool)
  (handler : M A) : M A :=
  fun s =>
    match body s with
    | (Returns a, s') => (Returns a, s')
    | (Raises e, s') => if caught e then handler s' else (Raises e, s')
    end.

Definition gets {A : Type} (f : state -> A) : M A := fun s => (Returns (f s), s).

Definition modify (f : state -> state) : M unit := fun s => (Returns tt, f s).

Definition emit (e : event) : M unit :=
  modify (fun s => set_output (output s ++ [e]) s).

(** [for x in xs: body x]. *)
Fixpoint for_each {A : Type} (xs : list A) (body : A -> M unit) : M unit :=
  match xs with
  | [] => ret tt
  | x :: xs' => body x >> for_each xs' body
  end.

(** ** Operations of the Python library *)

(** [obj[k]]. *)
Definition py_getitem (obj : pyval) (k : key) : M pyval :=
  fun s =>
    match obj, k with
    | VDict d, KStr name =>
        match dict_get d name with
        | Some v => (Returns v, s)
        | None => (Raises KeyError, s)
        end
    | VDict _, KInt _ => (Raises KeyError, s)
    | VList l, KInt i =>
        match seq_index (heap s !!! l) i with
        | Some v => (Returns v, s)
        | None => (Raises IndexError, s)
        end
    | VTuple items, KInt i =>
        match seq_index items i with
        | Some v => (Returns v, s)
        | None => (Raises IndexError, s)
        end
    | VStr str, KInt i =>
        match seq_index (string_chars str) i with
        | Some v => (Returns v, s)
        | None => (Raises IndexError, s)
        end
    | _, _ => (Raises TypeError, s)
    end.

(** The items a [for] loop over [obj] visits. The items of a list object are
    read when the loop starts; this is what Python does as long as the body
    does not change the list it iterates. *)
Definition py_iter (obj : pyval) : M (list pyval) :=
  fun s =>
    match obj with
    | VList l => (Returns (heap s !!! l), s)
    | VTuple items => (Returns items, s)
    | VStr str => (Returns (string_chars str), s)
    | VDict d => (Returns (map VStr (dict_keys d)), s)
    | _ => (Raises TypeError, s)
    end.

(** [obj.insert(i, x)]: only list objects have the method. *)
Definition py_insert (obj : pyval) (i : nat) (x : pyval) : M unit :=
  fun s =>
    match obj with
    | VList l =>
        let items := heap s !!! l in
        (Returns tt,
         set_heap (<[l := take i items ++ x :: drop i items]> (heap s))
                  (next_loc s) s)
    | _ => (Raises AttributeError, s)
    end.

(** [time.sleep(seconds)]. *)
Definition sleep (seconds : Q) : M unit := emit (Sleep seconds).

(** [os.makedirs(path, exist_ok=True)]. *)
Definition makedirs (path : string) : M unit := emit (Makedirs path).

(** [open(path, 'w', newline='')]: the file is created, or emptied. *)
Definition open_w (path : string) : M unit := emit (Open path).

(** [csv.writer(csvfile).writerow(row)]: the row must be iterable. *)
Definition writerow (path : string) (row : pyval) : M unit :=
  try_except (let* fields := py_iter row in emit (WriteRow path fields))
             (fun e => match e with TypeError => true | _ => false end)
             (raise CsvError).

(** ** Reading the file system back from a trace *)

Definition fs_step (path : string) (content : option (list (list pyval)))
  (e : event) : option (list (list pyval)) :=
  match e with
  | Open p => if String.eqb p path then Some [] else content
  | WriteRow p row =>
      if String.eqb p path then Some (default [] content ++ [row]) else content
  | _ => content
  end.

(** The rows of the file at [path] after the events [evs]; [None] when the
    file was never opened. *)
Definition file_content (path : string) (evs : list event)
  : option (list (list pyval)) :=
  fold_left (fs_step path) evs None.

Definition is_file_event (e : event) : bool :=
  match e with
  | Makedirs _ | Open _ | WriteRow _ _ => true
  | _ => false
  end.

Definition is_flush (e : event) : bool :=
  match e with
  | Flush => true
  | _ => false
  end.

(** Number of calls of [write_order_book_csv] in a trace. *)
Definition flush_count (evs : list event) : nat :=
  length (List.filter is_flush evs).

(** ** The scraper *)

(** Class constants of [GDAXOrderBookScraper]. *)
Definition RATE_LIMIT : Q := 1 / 3 + (5 # 10).
Definition MAX_RETRIES : nat := 5.
Definition FREQUENCY : Q := 60.
Definition SCRAPES_PER_CSV : nat := 5.
Definition DEFAULT_OUTPUT_DIR : string := "data".

(** The order types of [write_order_book_csv]: the column of the order book,
    and the flag for [prepare_order_book_row]. *)
Definition order_types : list (string * string) :=
  [("bids", "b"); ("asks", "a")].

(** How an iteration can leave the loop over the products early: by the
    [return False] under [except (ConnectionError, JSONDecodeError)] or by the
    one under [except TypeError]. *)
Inductive early_return :=
  | DataUnavailable
  | NotSubscriptable.

Definition is_connection_error (e : exn) : bool :=
  match e with
  | ConnectionError => true
  | _ => false
  end.

Definition is_fetch_error (e : exn) : bool :=
  match e with
  | ConnectionError | JSONDecodeError => true
  | _ => false
  end.

Definition is_type_error (e : exn) : bool :=
  match e with
  | TypeError => true
  | _ => false
  end.

Definition is_attribute_error (e : exn) : bool :=
  match e with
  | AttributeError => true
  | _ => false
  end.

(** Modelled from the spec: [connection_retry] of the module [utils], which is
    not among the sources. The spec calls it a generic retry-with-backoff
    wrapper around the network call, with bounded retries on transient
    network failures. The call is attempted at most [max_retries] times; after
    an attempt that fails with a connection error and is not the last one,
    the wrapper waits [wait_time] seconds and tries again; the error of the
    last attempt, and any other exception, goes to the caller. *)
Fixpoint connection_retry {A : Type} (max_retries : nat) (wait_time : Q)
  (func : M A) : M A :=
  match max_retries with
  | O => raise ConnectionError
  | S O => func
  | S n =>
      try_except func is_connection_error
        (sleep wait_time >> connection_retry n wait_time func)
  end.

Section GDAXOrderBookScraper.

Context (E : environment).

(** [datetime.datetime.now(datetime.timezone.utc)]. *)
Definition datetime_now : M datetime :=
  fun s => (Returns (utcnow E (clock_reads s)),
            set_clock_reads (S (clock_reads s)) s).

(** [time.time()]. *)
Definition time_now : M Q :=
  fun s => (Returns (time_time E (clock_reads s)),
            set_clock_reads (S (clock_reads s)) s).

(** [self.client.get_product_order_book(product, level=2)]: one request, whose
    body is decoded into new objects. *)
Definition get_product_order_book (product : string) : M pyval :=
  fun s =>
    let s1 := set_requests (S (requests s)) s in
    match http_get E (requests s) product with
    | Reply body =>
        let '(v, (h, n)) := loads body (heap s) (next_loc s) in
        (Returns v, set_heap h n s1)
    | Failure e => (Raises e, s1)
    end.

(** The scraper [__init__] makes, in a world where nothing has happened
    yet: the clock is read once. *)
Definition __init__ : state :=
  mkState [] [] (utcnow E 0) DEFAULT_OUTPUT_DIR ∅ 0 0 1 [].

Definition add_product (product : string) : M unit :=
  modify (fun s => set_products (products s ++ [product]) s).

Definition _get_order_book_data (product : string) : M pyval :=
  connection_retry MAX_RETRIES RATE_LIMIT (get_product_order_book product).

Definition prepare_order_book_row (row : pyval) (order_type : string)
  : M pyval :=
  let* datetime_iso := gets (fun s => isoformat E " " (current_time s)) in
  try_except
    (py_insert row 0 (VStr order_type) >>
     py_insert row 0 (VStr datetime_iso) >>
     ret row)
    is_attribute_error
    (ret VNone).

(** The body of [for row in order_book_data[product][order_type]]. *)
Definition write_row (csv_path : string) (ot : string) (row : pyval) : M unit :=
  let* row := prepare_order_book_row row ot in
  writerow csv_path row.

(** The body of [for order_type in order_types]. *)
Definition write_order_type (csv_path : string) (book : pyval)
  (order_type : string * string) : M unit :=
  let* rows := py_getitem book (KStr (fst order_type)) in
  let* rows := py_iter rows in
  for_each rows (write_row csv_path (snd order_type)).

Definition product_dir (s : state) (product : string) : string :=
  path_join (csv_directory s) product.

Definition csv_filename (s : state) : string :=
  str_float E (timestamp (current_time s)).

Definition csv_path (s : state) (product : string) : string :=
  path_join (product_dir s product) (csv_filename s).

(** The body of [for product in order_book_data]. The product is a key of the
    snapshot, so [order_book_data[product]] is there; the model raises
    [KeyError] otherwise. *)
Definition write_product (order_book_data : snapshot) (product : string)
  : M unit :=
  let* product_dir := gets (fun s => product_dir s product) in
  makedirs product_dir >>
  let* csv_path := gets (fun s => csv_path s product) in
  open_w csv_path >>
  for_each order_types
    (fun order_type =>
       match dict_get order_book_data product with
       | Some book => write_order_type csv_path book order_type
       | None => raise KeyError
       end).

(** The body of [for order_book_data in self.order_book_data]. *)
Definition write_snapshot (order_book_data : snapshot) : M unit :=
  for_each (dict_keys order_book_data) (write_product order_book_data).

Definition write_order_book_csv : M unit :=
  emit Flush >>
  let* buffer := gets order_book_data in
  for_each buffer write_snapshot.

(** The body of [for product in self.products]. *)
Definition fetch_product (product : string) (order_book_data_all : snapshot)
  : M (snapshot + early_return) :=
  let* fetched :=
    try_except
      (let* data := _get_order_book_data product in
       ret (inl (VTuple [data])))
      is_fetch_error
      (ret (inr DataUnavailable)) in
  match fetched with
  | inr stop => ret (inr stop)
  | inl order_book_data =>
      try_except
        (let* data := py_getitem order_book_data (KInt 0) in
         ret (inl (dict_set order_book_data_all product data)))
        is_type_error
        (ret (inr NotSubscriptable))
  end.

Fixpoint fetch_products (ps : list string) (order_book_data_all : snapshot)
  : M (snapshot + early_return) :=
  match ps with
  | [] => ret (inl order_book_data_all)
  | product :: ps' =>
      let* r := fetch_product product order_book_data_all in
      match r with
      | inr stop => ret (inr stop)
      | inl order_book_data_all' => fetch_products ps' order_book_data_all'
      end
  end.

(** The first lines of [_run_iteration]: the time of the iteration is set. *)
Definition start_iteration : M unit :=
  let* now := datetime_now in
  modify (set_current_time now).

(** The last lines of [_run_iteration]: the snapshot joins the buffer, and
    the buffer is written and emptied when it is long enough. *)
Definition store (order_book_data_all : snapshot) : M bool :=
  modify (fun s => set_order_book_data
                     (order_book_data s ++ [order_book_data_all]) s) >>
  let* n := gets (fun s => length (order_book_data s)) in
  (if (SCRAPES_PER_CSV <=? n)%nat
   then write_order_book_csv >> modify (set_order_book_data [])
   else ret tt) >>
  ret true.

Definition _run_iteration : M bool :=
  start_iteration >>
  let* ps := gets products in
  let* r := fetch_products ps [] in
  match r with
  | inr _ => ret false
  | inl order_book_data_all => store order_book_data_all
  end.

(** The time [run] sleeps at the end of an iteration. *)
Definition sleep_time (start_time now : Q) : Q :=
  let frequency := FREQUENCY in
  let elapsed_time := Qmod (now - start_time) frequency in
  frequency - elapsed_time.

(** [fuel] turns of the [while running] loop of [run]. *)
Fixpoint run_loop (fuel : nat) (start_time : Q) : M unit :=
  match fuel with
  | O => ret tt
  | S fuel' =>
      let* success := _run_iteration in
      let* now := time_now in
      sleep (sleep_time start_time now) >>
      run_loop fuel' start_time
  end.

Definition run (fuel : nat) : M unit :=
  let* start_time := time_now in
  run_loop fuel start_time.

End GDAXOrderBookScraper.

(** ** A small world to run the scraper in *)

(** Two digits, as in a time of day. *)
Definition pad2 (n : Z) : string :=
  if (n <? 10)%Z then "0" +:+ pretty n else pretty n.

(** [isoformat] for the whole seconds of 1 January 1970. *)
Definition demo_isoformat (sep : string) (t : datetime) : string :=
  let secs := (t / 1000000)%Z in
  "1970-01-01" +:+ sep +:+ pad2 (secs / 3600) +:+ ":" +:+
  pad2 ((secs / 60) mod 60) +:+ ":" +:+ pad2 (secs mod 60) +:+ "+00:00".

(** The order book the exchange sends as its [n]-th reply: one bid and one
    ask, with prices that tell the replies apart. *)
Definition demo_book (n : nat) : json :=
  JObject
    [("sequence", JInt (Z.of_nat n));
     ("bids", JArray [JArray [JStr (pretty (100 + Z.of_nat n)%Z +:+ ".00");
                              JStr "0.5"; JInt 1]]);
     ("asks", JArray [JArray [JStr (pretty (200 + Z.of_nat n)%Z +:+ ".00");
                              JStr "0.25"; JInt 2]])].

(** A world where every request succeeds and the clock is read every thirty
    seconds, starting at the epoch. *)
Definition demo_env : environment :=
  {| isoformat := demo_isoformat;
     str_float := fun q => pretty (Qfloor q) +:+ ".0";
     http_get := fun n _ => Reply (demo_book n);
     utcnow := fun n => (Z.of_nat n * 30000000)%Z;
     time_time := fun n => inject_Z (Z.of_nat n * 30) |}.

(** A world where the exchange cannot be reached. *)
Definition offline_env : environment :=
  {| isoformat := demo_isoformat;
     str_float := fun q => pretty (Qfloor q) +:+ ".0";
     http_get := fun _ _ => Failure ConnectionError;
     utcnow := fun n => (Z.of_nat n * 30000000)%Z;
     time_time := fun n => inject_Z (Z.of_nat n * 30) |}.

(** The scraper of the [__main__] block, before [run]. *)
Definition demo_start : state := snd (add_product "BTC-USD" (__init__ demo_env)).

(** The state at the end of five turns of [run]. *)
Definition demo_end : state := snd (run demo_env 5 demo_start).

(** The state after four turns of [run]: four snapshots wait in the buffer. *)
Definition demo_buffered : state := snd (run demo_env 4 demo_start).

(** The last snapshot of that buffer. *)
Definition demo_snapshot : snapshot :=
  [("BTC-USD",
    VDict [("sequence", VInt 3); ("bids", VList 13); ("asks", VList 15)])].

(** A world where one of two products cannot be fetched. *)
Definition flaky_env : environment :=
  {| isoformat := demo_isoformat;
     str_float := fun q => pretty (Qfloor q) +:+ ".0";
     http_get := fun n product =>
                   if String.eqb product "ETH-USD"
                   then Failure ConnectionError
                   else Reply (demo_book n);
     utcnow := fun n => (Z.of_nat n * 30000000)%Z;
     time_time := fun n => inject_Z (Z.of_nat n * 30) |}.

(** A scraper that tracks the two products, with the buffer of
    [demo_buffered]. *)
Definition flaky_start : state :=
  set_products ["BTC-USD"; "ETH-USD"] demo_buffered.

(** A world where the exchange sends a bid that is not a list. *)
Definition broken_env : environment :=
  {| isoformat := demo_isoformat;
     str_float := fun q => pretty (Qfloor q) +:+ ".0";
     http_get := fun _ _ =>
                   Reply (JObject [("bids", JArray [JStr "295.96"]);
                                   ("asks", JArray [])]);
     utcnow := fun n => (Z.of_nat n * 30000000)%Z;
     time_time := fun n => inject_Z (Z.of_nat n * 30) |}.

(** ** Notions used in the statements *)

(** The values with an [insert] method. *)
Definition has_insert (v : pyval) : bool :=
  match v with
  | VList _ => true
  | _ => false
  end.

(** What fetching leaves alone: the attributes of the scraper, the clock and
    the list objects that exist already. New objects may appear, requests are
    counted, and the only events are the waits between attempts. *)
Definition fetch_frame (s s' : state) : Prop :=
  products s' = products s /\
  order_book_data s' = order_book_data s /\
  current_time s' = current_time s /\
  csv_directory s' = csv_directory s /\
  clock_reads s' = clock_reads s /\
  next_loc s <= next_loc s' /\
  (forall l, l < next_loc s -> heap s' !! l = heap s !! l) /\
  requests s <= requests s' /\
  exists k, output s' = output s ++ replicate k (Sleep RATE_LIMIT).

(** The outcome of the [n]-th request for a product, decoded in the state
    [s]. *)
Definition outcome (E : environment) (n : nat) (product : string) (s : state)
  : result pyval :=
  match http_get E n product with
  | Reply body => Returns (fst (loads body (heap s) (next_loc s)))
  | Failure e => Raises e
  end.

(** What writing leaves alone: everything but the rows in the heap and the
    trace. *)
Definition flush_frame (s s' : state) : Prop :=
  products s' = products s /\
  order_book_data s' = order_book_data s /\
  current_time s' = current_time s /\
  csv_directory s' = csv_directory s /\
  next_loc s' = next_loc s /\
  requests s' = requests s /\
  clock_reads s' = clock_reads s.

(** A row as it is written: the date of the current iteration, the flag of an
    order type, then the fields of the order. *)
Definition stamped (E : environment) (s : state) (row : list pyval) : Prop :=
  exists ot rest,
    (ot = "b" \/ ot = "a") /\
    row = VStr (isoformat E " " (current_time s)) :: VStr ot :: rest.

(** The events of writing one product of one snapshot: its directory is made,
    its file is opened for writing, rows are written to it. *)
Definition chunk_events (E : environment) (s : state)
  (c : string * list (list pyval)) : list event :=
  Makedirs (product_dir s (fst c))
  :: Open (csv_path E s (fst c))
  :: map (WriteRow (csv_path E s (fst c))) (snd c).

(** From [s] to [s'], rows were written to [path]. *)
Definition writes (E : environment) (path : string) (s s' : state) : Prop :=
  flush_frame s s' /\
  exists rows,
    output s' = output s ++ map (WriteRow path) rows /\
    Forall (stamped E s) rows.

(** From [s] to [s'], the products [ks] were written, one after the other,
    all of them when the result [r] is not an exception. *)
Definition chunked (E : environment) (s s' : state) (r : result unit)
  (ks : list string) : Prop :=
  flush_frame s s' /\
  exists chunks,
    output s' = output s ++ flat_map (chunk_events E s) chunks /\
    Forall (fun c => Forall (stamped E s) (snd c)) chunks /\
    map fst chunks `prefix_of` ks /\
    (r = Returns tt -> map fst chunks = ks).

(** During the loop over the products [ps], started in the state [s], a
    fetch raises [ConnectionError] or [JSONDecodeError]. *)
Inductive fetch_fails (E : environment) : list string -> state -> Prop :=
  | fetch_fails_here product ps s e s' :
      _get_order_book_data E product s = (Raises e, s') ->
      is_fetch_error e = true ->
      fetch_fails E (product :: ps) s
  | fetch_fails_later product ps s data s' :
      _get_order_book_data E product s = (Returns data, s') ->
      fetch_fails E ps s' ->
      fetch_fails E (product :: ps) s.

(** ** Notions used in the further properties *)

(** During the loop over the products [ps], started in the state [s], a
    fetch raises [e], an exception the loop does not catch. *)
Inductive fetch_crashes (E : environment) (e : exn)
  : list string -> state -> Prop :=
  | fetch_crashes_here product ps s s' :
      _get_order_book_data E product s = (Raises e, s') ->
      is_fetch_error e = false ->
      fetch_crashes E e (product :: ps) s
  | fetch_crashes_later product ps s data s' :
      _get_order_book_data E product s = (Returns data, s') ->
      fetch_crashes E e ps s' ->
      fetch_crashes E e (product :: ps) s.

(** A world where a request times out while the reply is read, which is not a
    connection error. *)
Definition timeout_env : environment :=
  {| isoformat := demo_isoformat;
     str_float := fun q => pretty (Qfloor q) +:+ ".0";
     http_get := fun _ _ => Failure (OtherError "ReadTimeout");
     utcnow := fun n => (Z.of_nat n * 30000000)%Z;
     time_time := fun n => inject_Z (Z.of_nat n * 30) |}.

(** From [s] to [s'], only files were touched: nothing but what
    [flush_frame] allows has changed, the list objects have only grown at the
    front, and every event is a file event. *)
Definition flush_local (s s' : state) : Prop :=
  flush_frame s s' /\
  (forall l, heap s !!! l `suffix_of` heap s' !!! l) /\
  exists evs,
    output s' = output s ++ evs /\
    Forall (fun e => is_file_event e = true) evs.


(** The exception [book['bids']] raises, if any: [KeyError] for a dictionary
    without the key, [TypeError] for a value that is no dictionary. *)
Definition bids_error (book : pyval) : option exn :=
  match book with
  | VDict entries =>
      match dict_get entries "bids" with
      | Some _ => None
      | None => Some KeyError
      end
  | _ => Some TypeError
  end.

(** A world where the exchange answers with an error message, as it does for
    an unknown product. *)
Definition message_env : environment :=
  {| isoformat := demo_isoformat;
     str_float := fun q => pretty (Qfloor q) +:+ ".0";
     http_get := fun _ _ => Reply (JObject [("message", JStr "NotFound")]);
     utcnow := fun n => (Z.of_nat n * 30000000)%Z;
     time_time := fun n => inject_Z (Z.of_nat n * 30) |}.

(** A reply whose second bid is a string, not a list. *)
Definition mixed_body : json :=
  JObject
    [("bids", JArray [JArray [JStr "100.00"; JStr "0.5"; JInt 1];
                      JStr "oops";
                      JArray [JStr "99.00"; JStr "2"; JInt 3]]);
     ("asks", JArray [JArray [JStr "200.00"; JStr "0.25"; JInt 2]])].

(** The scraper of [demo_start] once that reply is decoded, and the snapshot
    that holds it. *)
Definition mixed_state : state :=
  set_heap (fst (snd (loads mixed_body ∅ 0))) (snd (snd (loads mixed_body ∅ 0)))
           demo_start.

Definition mixed_snapshot : snapshot :=
  [("BTC-USD", fst (loads mixed_body ∅ 0))].

(** * Properties *)

(** ** The model at work *)

Example path_join_relative : path_join "data" "BTC-USD" = "data/BTC-USD".
Proof. reflexivity. Qed.

Example path_join_trailing_sep : path_join "data/" "BTC-USD" = "data/BTC-USD".
Proof. reflexivity. Qed.

Example path_join_absolute : path_join "data" "/tmp/x" = "/tmp/x".
Proof. reflexivity. Qed.

Example loads_order_book :
  fst (loads (demo_book 0) ∅ 0) =
    VDict [("sequence", VInt 0); ("bids", VList 1); ("asks", VList 3)].
Proof. reflexivity. Qed.

(** Four iterations store four snapshots and write nothing. *)
Example four_iterations :
  length (order_book_data demo_buffered) = 4 /\
  output demo_buffered = replicate 4 (Sleep 60).
Proof. vm_compute. split; reflexivity. Qed.

(** The fifth iteration flushes and empties the buffer. *)
Example five_iterations :
  order_book_data demo_end = [] /\ flush_count (output demo_end) = 1.
Proof. vm_compute. split; reflexivity. Qed.

(** A row that is not a list stops the program at the first flush: the file
    is opened, [writerow] gets [None] and raises, the buffer stays full. *)
Example run_stops_on_bad_row :
  fst (run broken_env 5 demo_start) = Raises CsvError /\
  length (order_book_data (snd (run broken_env 5 demo_start))) = 5 /\
  file_content "data/BTC-USD/300.0" (output (snd (run broken_env 5 demo_start)))
    = Some [].
Proof. vm_compute. repeat split; reflexivity. Qed.

(** ** The sleep of [run] *)

Lemma Qmod_bounds (x m : Q) : (0 < m -> 0 <= Qmod x m /\ Qmod x m < m)%Q.
Proof.
  intros Hm. unfold Qmod.
  pose proof (Qfloor_le (x / m)) as Hlo.
  pose proof (Qlt_floor (x / m)) as Hhi.
  rewrite inject_Z_plus in Hhi.
  set (k := inject_Z (Qfloor (x / m))) in *.
  assert (Hx : (x == m * (x / m))%Q).
  { rewrite Qmult_div_r; [reflexivity|].
    intros H. rewrite H in Hm. apply (Qlt_irrefl 0 Hm). }
  assert (H1 : (m * k <= m * (x / m))%Q) by (apply Qmult_le_l; assumption).
  assert (H2 : (m * (x / m) < m * (k + inject_Z 1))%Q)
    by (apply Qmult_lt_l; assumption).
  rewrite <- Hx in H1, H2.
  change (inject_Z 1) with 1%Q in H2.
  split; lra.
Qed.

(** C6. For a current time not before the start time, the time [run] sleeps,
    [FREQUENCY - ((now - start_time) % FREQUENCY)] with [FREQUENCY = 60], is
    greater than 0 and at most [FREQUENCY], and the sleep ends a whole number
    of periods, at least one, after the start time. *)
Theorem sleep_time_bounds (start_time now : Q) :
  (start_time <= now)%Q ->
  (FREQUENCY == 60)%Q /\
  (0 < sleep_time start_time now)%Q /\
  (sleep_time start_time now <= FREQUENCY)%Q /\
  exists k : Z,
    (1 <= k)%Z /\
    (now + sleep_time start_time now == start_time + FREQUENCY * inject_Z k)%Q.
Proof.
  intros Hle. split; [reflexivity|]. unfold sleep_time.
  destruct (Qmod_bounds (now - start_time) FREQUENCY) as [Hlo Hhi];
    [reflexivity|].
  split; [lra|]. split; [lra|].
  exists (Qfloor ((now - start_time) / FREQUENCY) + 1)%Z. split.
  - assert (H0 : (0 <= (now - start_time) / FREQUENCY)%Q).
    { apply Qle_shift_div_l; [reflexivity | lra]. }
    apply Qfloor_resp_le in H0. change (Qfloor 0) with 0%Z in H0. lia.
  - unfold Qmod. rewrite inject_Z_plus. change (inject_Z 1) with 1%Q. ring.
Qed.

Lemma sleep_time_bounds_witness :
  (0 <= 125 # 2)%Q /\
  (0 < sleep_time 0 (125 # 2))%Q /\ (sleep_time 0 (125 # 2) <= FREQUENCY)%Q.
Proof.
  split; [discriminate|].
  destruct (sleep_time_bounds 0 (125 # 2)) as (_ & Hlo & Hhi & _);
    [discriminate|].
  split; [exact Hlo | exact Hhi].
Defined.

(** Each turn of the loop of [run] that ends reads the clock and sleeps that
    long. *)
Lemma run_loop_sleeps (E : environment) (fuel : nat) (start_time : Q)
  (s s1 : state) (success : bool) :
  _run_iteration E s = (Returns success, s1) ->
  run_loop E (S fuel) start_time s =
    run_loop E fuel start_time
      (set_output
         (output s1 ++
          [Sleep (sleep_time start_time (time_time E (clock_reads s1)))])
         (set_clock_reads (S (clock_reads s1)) s1)).
Proof.
  intros Hrun. cbn [run_loop]. unfold bind at 1. rewrite Hrun. reflexivity.
Qed.

(** ** Row preparation *)

Ltac unfold_monad :=
  unfold write_row, prepare_order_book_row, writerow, py_insert, py_iter,
    py_getitem, try_except, emit, modify, gets, bind, ret, raise in *.

Lemma prepare_list (E : environment) (l : loc) (order_type : string)
  (s : state) :
  prepare_order_book_row E (VList l) order_type s =
    (Returns (VList l),
     set_heap (<[l := VStr (isoformat E " " (current_time s))
                       :: VStr order_type :: heap s !!! l]> (heap s))
              (next_loc s) s).
Proof.
  unfold_monad. cbn.
  rewrite lookup_total_insert_eq, insert_insert_eq. reflexivity.
Qed.

Lemma prepare_other (E : environment) (row : pyval) (order_type : string)
  (s : state) :
  has_insert row = false ->
  prepare_order_book_row E row order_type s = (Returns VNone, s).
Proof.
  intros Hrow. destruct row; try discriminate Hrow; reflexivity.
Qed.

Lemma writerow_none (path : string) (s : state) :
  writerow path VNone s = (Raises CsvError, s).
Proof. reflexivity. Qed.

(** C10. A row with an [insert] method is changed in place: the order type,
    then the date, go to its front, and the same object is returned. For a
    row without the method the result is [None], and [write_order_book_csv]
    gives that [None] to [writerow], which raises. *)
Theorem prepare_order_book_row_in_place (E : environment) (row : pyval)
  (order_type : string) (s : state) :
  (forall l, row = VList l ->
     prepare_order_book_row E row order_type s =
       (Returns (VList l),
        set_heap (<[l := VStr (isoformat E " " (current_time s))
                          :: VStr order_type :: heap s !!! l]> (heap s))
                 (next_loc s) s)) /\
  (has_insert row = false ->
     prepare_order_book_row E row order_type s = (Returns VNone, s) /\
     forall path,
       write_row E path order_type row s = writerow path VNone s /\
       writerow path VNone s = (Raises CsvError, s)).
Proof.
  split.
  - intros l ->. apply prepare_list.
  - intros Hrow. split; [apply prepare_other, Hrow|].
    intros path. split; [|apply writerow_none].
    unfold write_row, bind. rewrite prepare_other by exact Hrow. reflexivity.
Qed.

Lemma prepare_order_book_row_in_place_witness :
  prepare_order_book_row demo_env (VList 7) "a" demo_start =
    (Returns (VList 7),
     set_heap (<[7 := [VStr "1970-01-01 00:00:00+00:00"; VStr "a"]]>
                 (heap demo_start)) 0 demo_start) /\
  prepare_order_book_row demo_env (VStr "295.96") "a" demo_start =
    (Returns VNone, demo_start).
Proof.
  split.
  - apply (proj1 (prepare_order_book_row_in_place
                    demo_env (VList 7) "a" demo_start) 7 eq_refl).
  - apply (proj2 (prepare_order_book_row_in_place
                    demo_env (VStr "295.96") "a" demo_start) eq_refl).
Defined.

(** ** Decoding and fetching *)

Lemma json_nested_ind (P : json -> Prop) :
  P JNull -> (forall b, P (JBool b)) -> (forall n, P (JInt n)) ->
  (forall lit, P (JFloat lit)) -> (forall str, P (JStr str)) ->
  (forall items, Forall P items -> P (JArray items)) ->
  (forall ms, Forall (fun m => P (snd m)) ms -> P (JObject ms)) ->
  forall j, P j.
Proof.
  intros HN HB HI HF HS HA HO. fix IH 1.
  intros [ | b | n | lit | str | items | ms].
  - exact HN.
  - apply HB.
  - apply HI.
  - apply HF.
  - apply HS.
  - apply HA. induction items as [|j js IHjs]; constructor; [apply IH | exact IHjs].
  - apply HO. induction ms as [|[k j] ms IHms]; constructor; [apply IH | exact IHms].
Qed.

(** Decoding only allocates: the next free location does not go down and the
    objects below it are untouched. *)
Lemma loads_preserves (j : json) :
  forall h n v h' n',
    loads j h n = (v, (h', n')) ->
    n <= n' /\ forall l, l < n -> h' !! l = h !! l.
Proof.
  induction j as [ | b | z | lit | str | items IH | ms IH] using json_nested_ind;
    intros h n v h' n' Hl; cbn in Hl;
    try (injection Hl as <- <- <-; split; [lia | reflexivity]).
  - match type of Hl with
    | (let '(_, _) := ?f items h n in _) = _ =>
        assert (Hgo : forall h n vs h1 n1,
                   f items h n = (vs, (h1, n1)) ->
                   n <= n1 /\ forall l, l < n -> h1 !! l = h !! l);
        [| destruct (f items h n) as [vs [h1 n1]] eqn:Hf]
    end.
    + clear Hl. induction IH as [|j js Hj _ IHjs]; intros h0 n0 vs h1 n1 Hf.
      * injection Hf as <- <- <-. split; [lia | reflexivity].
      * destruct (loads j h0 n0) as [v0 [h2 n2]] eqn:Hj0.
        match type of Hf with
        | (let '(_, _) := ?g in _) = _ => destruct g as [vs' [h3 n3]] eqn:Hg
        end.
        injection Hf as <- <- <-.
        apply Hj in Hj0 as [Hle0 Hh0]. apply IHjs in Hg as [Hle1 Hh1].
        split; [lia|]. intros l Hlt. rewrite Hh1 by lia. apply Hh0, Hlt.
    + injection Hl as <- <- <-. apply Hgo in Hf as [Hle Hh].
      split; [lia|]. intros l Hlt.
      rewrite lookup_insert_ne by lia. apply Hh, Hlt.
  - match type of Hl with
    | (let '(_, _) := ?f ms ?d0 h n in _) = _ =>
        assert (Hgo : forall acc h n d1 h1 n1,
                   f ms acc h n = (d1, (h1, n1)) ->
                   n <= n1 /\ forall l, l < n -> h1 !! l = h !! l);
        [| destruct (f ms d0 h n) as [d1 [h1 n1]] eqn:Hf]
    end.
    + clear Hl. induction IH as [|[k j] ms' Hj _ IHms];
        intros d0 h0 n0 d1 h1 n1 Hf.
      * injection Hf as <- <- <-. split; [lia | reflexivity].
      * cbn in Hj. destruct (loads j h0 n0) as [v0 [h2 n2]] eqn:Hj0.
        apply Hj in Hj0 as [Hle0 Hh0]. apply IHms in Hf as [Hle1 Hh1].
        split; [lia|]. intros l Hlt. rewrite Hh1 by lia. apply Hh0, Hlt.
    + injection Hl as <- <- <-. apply Hgo in Hf as [Hle Hh]. auto.
Qed.

Ltac split_all := repeat match goal with |- _ /\ _ => split end.

Lemma fetch_frame_refl (s : state) : fetch_frame s s.
Proof.
  unfold fetch_frame. split_all; auto.
  exists 0. cbn. symmetry. apply app_nil_r.
Qed.

Lemma fetch_frame_trans (s1 s2 s3 : state) :
  fetch_frame s1 s2 -> fetch_frame s2 s3 -> fetch_frame s1 s3.
Proof.
  intros (Hp & Hb & Ht & Hd & Hc & Hn & Hh & Hr & k & Ho)
         (Hp' & Hb' & Ht' & Hd' & Hc' & Hn' & Hh' & Hr' & k' & Ho').
  unfold fetch_frame. split_all; try congruence; try lia.
  - intros l Hl. rewrite Hh' by lia. apply Hh, Hl.
  - exists (k + k'). rewrite Ho', Ho, <- app_assoc, replicate_add. reflexivity.
Qed.

Lemma get_product_order_book_spec (E : environment) (product : string)
  (s : state) :
  let '(r, s') := get_product_order_book E product s in
  r = outcome E (requests s) product s /\
  requests s' = S (requests s) /\ output s' = output s /\ fetch_frame s s'.
Proof.
  unfold get_product_order_book, outcome, fetch_frame.
  destruct (http_get E (requests s) product) as [body|e].
  - destruct (loads body (heap s) (next_loc s)) as [v [h n]] eqn:Hl.
    apply loads_preserves in Hl as [Hle Hh]. cbn.
    split_all; auto. exists 0. cbn. symmetry. apply app_nil_r.
  - cbn. split_all; auto. exists 0. cbn. symmetry. apply app_nil_r.
Qed.

(** The wrapper stops at the first attempt that does not fail with a
    connection error, or at the last attempt allowed. *)
Lemma connection_retry_spec (E : environment) (product : string) (n : nat) :
  forall s r s',
    connection_retry (S n) RATE_LIMIT (get_product_order_book E product) s
      = (r, s') ->
    exists attempts,
      1 <= attempts <= S n /\
      requests s' = requests s + attempts /\
      output s' = output s ++ replicate (attempts - 1) (Sleep RATE_LIMIT) /\
      (forall i, i < attempts - 1 ->
         http_get E (requests s + i) product = Failure ConnectionError) /\
      (attempts < S n ->
         http_get E (requests s + (attempts - 1)) product
           <> Failure ConnectionError) /\
      r = outcome E (requests s + (attempts - 1)) product s /\
      fetch_frame s s'.
Proof.
  induction n as [|n IH]; intros s r s' Hrun.
  - cbn in Hrun.
    pose proof (get_product_order_book_spec E product s) as Hspec.
    rewrite Hrun in Hspec. destruct Hspec as (-> & Hr & Ho & Hf).
    exists 1. cbn. rewrite Nat.add_0_r, app_nil_r.
    split_all; auto; try lia.
  - cbn [connection_retry] in Hrun. unfold try_except in Hrun.
    pose proof (get_product_order_book_spec E product s) as Hspec.
    destruct (get_product_order_book E product s) as [r1 s1] eqn:Hget.
    destruct Hspec as (Hr1 & Hreq & Hout & Hf).
    assert (Hone :
      r1 = r -> s1 = s' ->
      http_get E (requests s) product <> Failure ConnectionError ->
      exists attempts,
        1 <= attempts <= S (S n) /\
        requests s' = requests s + attempts /\
        output s' = output s ++ replicate (attempts - 1) (Sleep RATE_LIMIT) /\
        (forall i, i < attempts - 1 ->
           http_get E (requests s + i) product = Failure ConnectionError) /\
        (attempts < S (S n) ->
           http_get E (requests s + (attempts - 1)) product
             <> Failure ConnectionError) /\
        r = outcome E (requests s + (attempts - 1)) product s /\
        fetch_frame s s').
    { intros <- <- Hne. exists 1. cbn. rewrite Nat.add_0_r, app_nil_r.
      split_all; auto; try lia. }
    destruct r1 as [v|e].
    + injection Hrun as <- <-. apply Hone; auto.
      unfold outcome in Hr1. destruct (http_get E (requests s) product);
        [discriminate | discriminate].
    + destruct (is_connection_error e) eqn:He.
      * destruct e; try discriminate He. clear Hone.
        unfold bind, sleep, emit, modify in Hrun.
        apply IH in Hrun as (k & Hk & Hreq' & Hout' & Hfail & Hlast & Hres & Hf').
        cbn in Hreq', Hout', Hfail, Hlast, Hres.
        assert (Hs1 : s1 = set_requests (S (requests s)) s).
        { unfold get_product_order_book in Hget.
          destruct (http_get E (requests s) product).
          - destruct (loads body (heap s) (next_loc s)) as [? [? ?]].
            discriminate.
          - injection Hget as _ <-. reflexivity. }
        assert (Hce : http_get E (requests s) product = Failure ConnectionError).
        { unfold outcome in Hr1. destruct (http_get E (requests s) product);
            [discriminate | congruence]. }
        subst s1. cbn in *.
        exists (S k). split; [lia|]. split; [lia|]. split.
        { rewrite Hout', <- app_assoc. cbn. 
          replace (k - 0) with k by lia.
          destruct k; [lia|]. cbn. rewrite Nat.sub_0_r. reflexivity. }
        split.
        { intros i Hi. destruct i as [|i].
          - rewrite Nat.add_0_r. exact Hce.
          - replace (requests s + S i) with (S (requests s + i)) by lia.
            apply Hfail. lia. }
        split.
        { intros Hlt. replace (requests s + (S k - 1)) with (S (requests s + (k - 1))) by lia.
          apply Hlast. lia. }
        split.
        { rewrite Hres. replace (requests s + (S k - 1)) with (S (requests s + (k - 1))) by lia.
          reflexivity. }
        eapply fetch_frame_trans; [|exact Hf'].
        unfold fetch_frame. cbn. split_all; auto. exists 1. reflexivity.
      * injection Hrun as <- <-. apply Hone; auto.
        unfold outcome in Hr1. destruct (http_get E (requests s) product);
          [discriminate|]. intros Heq. injection Hr1 as ->. injection Heq as ->.
        discriminate He.
Qed.

(** C4. A fetch of a product's order book goes through the retry wrapper
    with [MAX_RETRIES = 5] and [RATE_LIMIT = 1/3 + 0.5]: it sends at least one
    and at most five requests, waits [RATE_LIMIT] seconds between two
    attempts, retries only after a connection error, and gives the outcome of
    its last attempt to the caller; when all five attempts fail, the
    connection error is raised. *)
Theorem bounded_retry (E : environment) (product : string) (s : state)
  (r : result pyval) (s' : state) :
  _get_order_book_data E product s = (r, s') ->
  MAX_RETRIES = 5 /\ (RATE_LIMIT == 5 # 6)%Q /\
  exists attempts,
    1 <= attempts <= MAX_RETRIES /\
    requests s' = requests s + attempts /\
    output s' = output s ++ replicate (attempts - 1) (Sleep RATE_LIMIT) /\
    (forall i, i < attempts - 1 ->
       http_get E (requests s + i) product = Failure ConnectionError) /\
    (attempts < MAX_RETRIES ->
       http_get E (requests s + (attempts - 1)) product
         <> Failure ConnectionError) /\
    r = outcome E (requests s + (attempts - 1)) product s /\
    ((forall i, i < MAX_RETRIES ->
        http_get E (requests s + i) product = Failure ConnectionError) ->
     attempts = MAX_RETRIES /\ r = Raises ConnectionError).
Proof.
  intros Hrun. split; [reflexivity|]. split; [reflexivity|].
  unfold _get_order_book_data in Hrun.
  apply connection_retry_spec in Hrun
    as (k & Hk & Hreq & Hout & Hfail & Hlast & Hres & _).
  exists k. fold MAX_RETRIES in Hk, Hlast. split_all; auto.
  - apply Hk.
  - apply Hk.
  - intros Hall.
    assert (Hk' : k = MAX_RETRIES).
    { destruct (decide (k < MAX_RETRIES)) as [Hlt|Hge]; [|lia].
      exfalso. apply (Hlast Hlt). apply Hall. lia. }
    split; [exact Hk'|].
    rewrite Hres. unfold outcome. rewrite Hall by lia. reflexivity.
Qed.

Lemma bounded_retry_witness :
  exists attempts,
    1 <= attempts <= MAX_RETRIES /\
    requests (snd (_get_order_book_data offline_env "BTC-USD" demo_start))
      = requests demo_start + attempts /\
    output (snd (_get_order_book_data offline_env "BTC-USD" demo_start))
      = output demo_start ++ replicate (attempts - 1) (Sleep RATE_LIMIT).
Proof.
  destruct (bounded_retry offline_env "BTC-USD" demo_start
              (fst (_get_order_book_data offline_env "BTC-USD" demo_start))
              (snd (_get_order_book_data offline_env "BTC-USD" demo_start))
              eq_refl)
    as (_ & _ & k & Hk & Hreq & Hout & _).
  exists k. auto.
Defined.

(** ** The loop over the products *)



(** ** The events of a flush *)

Lemma flush_frame_refl (s : state) : flush_frame s s.
Proof. unfold flush_frame. split_all; reflexivity. Qed.

Lemma flush_frame_trans (s1 s2 s3 : state) :
  flush_frame s1 s2 -> flush_frame s2 s3 -> flush_frame s1 s3.
Proof.
  unfold flush_frame. intros (? & ? & ? & ? & ? & ? & ?) (? & ? & ? & ? & ? & ? & ?).
  split_all; congruence.
Qed.

Lemma stamped_frame (E : environment) (s s' : state) (row : list pyval) :
  flush_frame s s' -> stamped E s' row -> stamped E s row.
Proof.
  intros (_ & _ & Ht & _) (ot & rest & Hot & ->).
  exists ot, rest. rewrite Ht. auto.
Qed.

Lemma chunk_events_frame (E : environment) (s s' : state) c :
  flush_frame s s' -> chunk_events E s' c = chunk_events E s c.
Proof.
  intros (_ & _ & Ht & Hd & _).
  unfold chunk_events, csv_path, product_dir, csv_filename.
  rewrite Ht, Hd. reflexivity.
Qed.

Lemma writes_refl (E : environment) (path : string) (s : state) :
  writes E path s s.
Proof.
  split; [apply flush_frame_refl|]. exists []. cbn.
  rewrite app_nil_r. auto.
Qed.

Lemma writes_trans (E : environment) (path : string) (s1 s2 s3 : state) :
  writes E path s1 s2 -> writes E path s2 s3 -> writes E path s1 s3.
Proof.
  intros (Hf & rows & Ho & Hs) (Hf' & rows' & Ho' & Hs').
  split; [eapply flush_frame_trans; eauto|].
  exists (rows ++ rows'). split.
  - rewrite Ho', Ho, <- app_assoc, map_app. reflexivity.
  - apply Forall_app. split; [exact Hs|].
    eapply Forall_impl; [exact Hs'|]. intros row. apply stamped_frame, Hf.
Qed.

(** A loop keeps what each of its turns keeps. *)
Lemma for_each_rel {A : Type} (R : state -> state -> Prop)
  (body : A -> M unit) (xs : list A) :
  (forall s, R s s) ->
  (forall s1 s2 s3, R s1 s2 -> R s2 s3 -> R s1 s3) ->
  (forall x s, In x xs -> R s (snd (body x s))) ->
  forall s, R s (snd (for_each xs body s)).
Proof.
  intros Hrefl Htrans Hbody. induction xs as [|x xs IH]; intros s; cbn.
  - apply Hrefl.
  - unfold bind. pose proof (Hbody x s (or_introl eq_refl)) as Hx.
    destruct (body x s) as [[[]|e] s1]; cbn in *.
    + eapply Htrans; [exact Hx | apply IH].
      intros y s0 Hy. apply Hbody. right. exact Hy.
    + exact Hx.
Qed.

Lemma write_row_writes (E : environment) (path ot : string) (row : pyval)
  (s : state) :
  ot = "b" \/ ot = "a" ->
  writes E path s (snd (write_row E path ot row s)).
Proof.
  intros Hot. unfold write_row, bind.
  destruct (has_insert row) eqn:Hrow.
  - destruct row; try discriminate Hrow. rewrite prepare_list.
    unfold_monad. cbn. rewrite lookup_total_insert_eq.
    split; [unfold flush_frame; cbn; split_all; reflexivity|].
    eexists [_]. split; [reflexivity|].
    constructor; [|constructor]. eexists _, _. eauto.
  - rewrite prepare_other by exact Hrow. rewrite writerow_none. cbn.
    apply writes_refl.
Qed.

Lemma write_order_type_writes (E : environment) (path : string) (book : pyval)
  (order_type : string * string) (s : state) :
  In order_type order_types ->
  writes E path s (snd (write_order_type E path book order_type s)).
Proof.
  intros Hin.
  assert (Hot : snd order_type = "b" \/ snd order_type = "a").
  { destruct Hin as [<-|[<-|[]]]; cbn; auto. }
  unfold write_order_type, bind.
  destruct (py_getitem book (KStr (fst order_type)) s) as [[rows|e] s1] eqn:Hget.
  - assert (s1 = s) as ->.
    { unfold py_getitem in Hget.
      destruct book; try (injection Hget as _ <-; reflexivity).
      destruct (dict_get entries (fst order_type));
        injection Hget as _ <-; reflexivity. }
    destruct (py_iter rows s) as [[items|e] s1] eqn:Hiter.
    + assert (s1 = s) as ->.
      { unfold py_iter in Hiter.
        destruct rows; injection Hiter as _ <-; reflexivity. }
      apply for_each_rel.
      * apply writes_refl.
      * apply writes_trans.
      * intros row s0 _. apply write_row_writes, Hot.
    + assert (s1 = s) as ->.
      { unfold py_iter in Hiter.
        destruct rows; injection Hiter as _ <-; reflexivity. }
      apply writes_refl.
  - assert (s1 = s) as ->.
    { unfold py_getitem in Hget.
      destruct book, (fst order_type); try (injection Hget as _ <-; reflexivity);
      try (destruct (dict_get _ _); injection Hget as _ <-; reflexivity). }
    apply writes_refl.
Qed.

Lemma write_product_chunk (E : environment) (order_book_data : snapshot)
  (product : string) (s : state) :
  flush_frame s (snd (write_product E order_book_data product s)) /\
  exists rows,
    output (snd (write_product E order_book_data product s))
      = output s ++ chunk_events E s (product, rows) /\
    Forall (stamped E s) rows.
Proof.
  unfold write_product, makedirs, open_w, emit, modify, gets, bind.
  cbn -[for_each order_types csv_path product_dir].
  change (csv_path E (set_output _ s) product) with (csv_path E s product).
  match goal with
  | |- context [for_each order_types ?body ?s2] =>
      assert (Hw : writes E (csv_path E s product) s2
                     (snd (for_each order_types body s2)));
      [| destruct (for_each order_types body s2) as [r s']]
  end.
  - apply for_each_rel.
    + apply writes_refl.
    + apply writes_trans.
    + intros order_type s0 Hin.
      destruct (dict_get order_book_data product) as [book|].
      * apply write_order_type_writes, Hin.
      * apply writes_refl.
  - cbn in *. destruct Hw as (Hf & rows & Ho & Hs). split.
    + unfold flush_frame in *. cbn in Hf. exact Hf.
    + exists rows. split; [|exact Hs].
      rewrite Ho. cbn. rewrite <- !app_assoc. reflexivity.
Qed.

Lemma chunked_nil (E : environment) (s : state) :
  chunked E s s (Returns tt) [].
Proof.
  split; [apply flush_frame_refl|]. exists []. cbn. rewrite app_nil_r.
  split_all; auto. 
Qed.

Lemma chunked_seq (E : environment) (s s1 s2 : state) (r : result unit)
  (k1 k2 : list string) :
  chunked E s s1 (Returns tt) k1 -> chunked E s1 s2 r k2 ->
  chunked E s s2 r (k1 ++ k2).
Proof.
  intros (Hf & c1 & Ho & Hs & Hp & Hk) (Hf' & c2 & Ho' & Hs' & Hp' & Hk').
  split; [eapply flush_frame_trans; eauto|].
  exists (c1 ++ c2). specialize (Hk eq_refl). split_all.
  - rewrite Ho', Ho, <- app_assoc, flat_map_app. f_equal. f_equal.
    apply flat_map_ext. intros c. apply chunk_events_frame, Hf.
  - apply Forall_app. split; [exact Hs|].
    eapply Forall_impl; [exact Hs'|]. intros c Hc.
    eapply Forall_impl; [exact Hc|]. intros row. apply stamped_frame, Hf.
  - rewrite map_app, Hk. apply prefix_app, Hp'.
  - intros Hr. rewrite map_app, Hk, (Hk' Hr). reflexivity.
Qed.

Lemma chunked_stop (E : environment) (s s1 : state) (e : exn)
  (k1 k2 : list string) :
  chunked E s s1 (Raises e) k1 -> chunked E s s1 (Raises e) (k1 ++ k2).
Proof.
  intros (Hf & c1 & Ho & Hs & Hp & Hk). split; [exact Hf|].
  exists c1. split_all; auto.
  - apply prefix_app_r, Hp.
  - discriminate.
Qed.

Lemma for_each_chunked {A : Type} (E : environment) (keys : A -> list string)
  (body : A -> M unit) (xs : list A) :
  (forall x s, chunked E s (snd (body x s)) (fst (body x s)) (keys x)) ->
  forall s,
    chunked E s (snd (for_each xs body s)) (fst (for_each xs body s))
            (flat_map keys xs).
Proof.
  intros Hbody. induction xs as [|x xs IH]; intros s; cbn.
  - apply chunked_nil.
  - unfold bind. specialize (Hbody x s).
    destruct (body x s) as [[[]|e] s1]; cbn in *.
    + eapply chunked_seq; [exact Hbody | apply IH].
    + apply chunked_stop, Hbody.
Qed.

Lemma write_product_chunked (E : environment) (order_book_data : snapshot)
  (product : string) (s : state) :
  chunked E s (snd (write_product E order_book_data product s))
          (fst (write_product E order_book_data product s)) [product].
Proof.
  destruct (write_product_chunk E order_book_data product s)
    as (Hf & rows & Ho & Hs).
  split; [exact Hf|]. exists [(product, rows)]. cbn.
  rewrite app_nil_r. split_all; auto.
Qed.

Lemma write_snapshot_chunked (E : environment) (order_book_data : snapshot)
  (s : state) :
  chunked E s (snd (write_snapshot E order_book_data s))
          (fst (write_snapshot E order_book_data s))
          (dict_keys order_book_data).
Proof.
  unfold write_snapshot.
  replace (dict_keys order_book_data)
    with (flat_map (fun p => [p]) (dict_keys order_book_data)) at 3.
  - apply for_each_chunked. intros p s0. apply write_product_chunked.
  - induction (dict_keys order_book_data) as [|k ks IH]; cbn; congruence.
Qed.

(** The trace of a flush: the mark of the call, then one chunk for each
    product of each buffered snapshot, in order. *)
Lemma write_order_book_csv_trace (E : environment) (s : state) :
  flush_frame s (snd (write_order_book_csv E s)) /\
  exists chunks,
    output (snd (write_order_book_csv E s))
      = output s ++ Flush :: flat_map (chunk_events E s) chunks /\
    Forall (fun c => Forall (stamped E s) (snd c)) chunks /\
    map fst chunks `prefix_of` flat_map dict_keys (order_book_data s) /\
    (fst (write_order_book_csv E s) = Returns tt ->
     map fst chunks = flat_map dict_keys (order_book_data s)).
Proof.
  unfold write_order_book_csv, emit, modify, gets, bind. cbn.
  match goal with
  | |- context [for_each ?b ?body ?s1] =>
      pose proof (for_each_chunked E dict_keys body b
                    (write_snapshot_chunked E) s1) as Hc
  end.
  cbn in *. destruct Hc as (Hf & chunks & Ho & Hs & Hp & Hk). split.
  - unfold flush_frame in *. cbn in Hf. exact Hf.
  - exists chunks. split_all; auto.
    etransitivity; [exact Ho|]. cbn. rewrite <- app_assoc. reflexivity.
Qed.

(** ** Files *)

Lemma file_content_app (path : string) (evs1 evs2 : list event) :
  file_content path (evs1 ++ evs2)
    = fold_left (fs_step path) evs2 (file_content path evs1).
Proof. unfold file_content. apply fold_left_app. Qed.



Lemma file_content_rows (path : string) (rows : list (list pyval)) :
  forall init,
    fold_left (fs_step path) (map (WriteRow path) rows) (Some init)
      = Some (init ++ rows).
Proof.
  induction rows as [|row rows IH]; intros init; cbn.
  - rewrite app_nil_r. reflexivity.
  - rewrite String.eqb_refl. cbn. rewrite IH, <- app_assoc. reflexivity.
Qed.





(** ** What a flush leaves in a file *)

Lemma for_each_app {A : Type} (body : A -> M unit) (xs ys : list A) (s : state) :
  for_each (xs ++ ys) body s
    = (for_each xs body >> for_each ys body) s.
Proof.
  revert s. induction xs as [|x xs IH]; intros s; cbn.
  - unfold bind, ret. reflexivity.
  - unfold bind in *. destruct (body x s) as [[[]|e] s1]; [apply IH | reflexivity].
Qed.


(** ** The rows of a well-formed order book *)

(** Rows that are distinct list objects are each stamped once, in order. *)
Lemma write_rows_fresh (E : environment) (path ot : string) (rs : list loc) :
  forall s,
    NoDup rs ->
    exists s',
      for_each (map VList rs) (write_row E path ot) s = (Returns tt, s') /\
      flush_frame s s' /\
      output s' = output s ++
        map (fun r => WriteRow path (VStr (isoformat E " " (current_time s))
                                       :: VStr ot :: heap s !!! r)) rs /\
      (forall l, ~ In l rs -> heap s' !!! l = heap s !!! l).
Proof.
  induction rs as [|r rs IH]; intros s Hnd.
  - exists s. cbn. rewrite app_nil_r.
    split_all; auto using flush_frame_refl.
  - apply NoDup_cons in Hnd as [Hr Hnd].
    rewrite list_elem_of_In in Hr.
    cbn [map for_each]. unfold bind at 1. unfold write_row at 1.
    unfold bind at 1. rewrite prepare_list.
    unfold writerow, py_iter, try_except, emit, modify, bind.
    cbn [heap set_heap output set_output]. rewrite lookup_total_insert_eq.
    match goal with
    | |- context [for_each _ _ ?s1] =>
        destruct (IH s1 Hnd) as (s' & Hrun & Hf & Ho & Hh)
    end.
    exists s'. rewrite Hrun. cbn in Hf, Ho, Hh. split_all.
    + reflexivity.
    + exact Hf.
    + rewrite Ho, <- app_assoc. cbn. do 2 f_equal.
      apply map_ext_in. intros r' Hr'.
      rewrite lookup_total_insert_ne by (intros ->; contradiction).
      reflexivity.
    + intros l Hl. rewrite Hh by (intros Hin; apply Hl; right; exact Hin).
      rewrite lookup_total_insert_ne
        by (intros ->; apply Hl; left; reflexivity).
      reflexivity.
Qed.

Lemma write_order_type_fresh (E : environment) (path : string)
  (book : list (string * pyval)) (column ot : string) (lrows : loc)
  (rs : list loc) (s : state) :
  dict_get book column = Some (VList lrows) ->
  heap s !!! lrows = map VList rs ->
  NoDup rs ->
  exists s',
    write_order_type E path (VDict book) (column, ot) s = (Returns tt, s') /\
    flush_frame s s' /\
    output s' = output s ++
      map (fun r => WriteRow path (VStr (isoformat E " " (current_time s))
                                     :: VStr ot :: heap s !!! r)) rs /\
    (forall l, ~ In l rs -> heap s' !!! l = heap s !!! l).
Proof.
  intros Hcol Hrows Hnd.
  unfold write_order_type, py_getitem, py_iter, bind.
  cbn [fst snd]. rewrite Hcol, Hrows.
  apply write_rows_fresh, Hnd.
Qed.

(** C2. The file of a product whose order book has the shape the exchange
    sends, with all its lists distinct objects, holds one row for each bid
    and then one for each ask: the ISO date of the iteration, ['b'] for a bid
    and ['a'] for an ask, then the fields of the order as they were. *)
Theorem csv_row_format (E : environment) (order_book_data : snapshot)
  (product : string) (book : list (string * pyval)) (lbids lasks : loc)
  (bids asks : list loc) (s : state) :
  dict_get order_book_data product = Some (VDict book) ->
  dict_get book "bids" = Some (VList lbids) ->
  dict_get book "asks" = Some (VList lasks) ->
  heap s !!! lbids = map VList bids ->
  heap s !!! lasks = map VList asks ->
  NoDup (lbids :: lasks :: bids ++ asks) ->
  let date := VStr (isoformat E " " (current_time s)) in
  exists s' rows,
    write_product E order_book_data product s = (Returns tt, s') /\
    file_content (csv_path E s product) (output s') = Some rows /\
    rows = map (fun r => date :: VStr "b" :: heap s !!! r) bids ++
           map (fun r => date :: VStr "a" :: heap s !!! r) asks /\
    (forall r price size order_count,
       In r bids -> heap s !!! r = [price; size; order_count] ->
       In [date; VStr "b"; price; size; order_count] rows) /\
    (forall r price size order_count,
       In r asks -> heap s !!! r = [price; size; order_count] ->
       In [date; VStr "a"; price; size; order_count] rows).
Proof.
  intros Hbook Hbids Hasks Hlb Hla Hnd date.
  apply NoDup_cons in Hnd as [Hlb_fresh Hnd].
  apply NoDup_cons in Hnd as [Hla_fresh Hnd].
  apply NoDup_app in Hnd as (Hnb & Hdisj & Hna).
  rewrite list_elem_of_In in Hla_fresh.
  unfold write_product, makedirs, open_w, emit, modify, gets, bind.
  cbn -[for_each order_types csv_path product_dir write_order_type].
  change (csv_path E (set_output _ s) product) with (csv_path E s product).
  cbn [order_types for_each]. rewrite Hbook. unfold bind at 1.
  match goal with
  | |- context [write_order_type E ?path (VDict book) ("bids", "b") ?s2] =>
      destruct (write_order_type_fresh E path book "bids" "b" lbids bids s2
                  Hbids Hlb Hnb) as (s3 & Hrun3 & Hf3 & Ho3 & Hh3)
  end.
  rewrite Hrun3. unfold bind at 1.
  assert (Hla3 : heap s3 !!! lasks = map VList asks).
  { rewrite Hh3; [exact Hla|].
    intros Hin. apply Hla_fresh, in_or_app. left. exact Hin. }
  destruct (write_order_type_fresh E (csv_path E s product) book "asks" "a"
              lasks asks s3 Hasks Hla3 Hna) as (s4 & Hrun4 & Hf4 & Ho4 & Hh4).
  rewrite Hrun4. unfold ret.
  eexists s4, _. split; [reflexivity|].
  assert (Ht3 : current_time s3 = current_time s) by (apply Hf3).
  assert (Hcontent :
    file_content (csv_path E s product) (output s4) =
      Some (map (fun r => date :: VStr "b" :: heap s !!! r) bids ++
            map (fun r => date :: VStr "a" :: heap s !!! r) asks)).
  { rewrite Ho4, Ho3. cbn [output set_output current_time].
    rewrite Ht3.
    rewrite (map_ext_in _ (fun r => WriteRow (csv_path E s product)
                                      (date :: VStr "a" :: heap s !!! r)) asks).
    2:{ intros r Hr. rewrite Hh3; [reflexivity|].
        intros Hin. apply (Hdisj r); apply list_elem_of_In; assumption. }
    rewrite <- !app_assoc. rewrite !file_content_app.
    cbn [fold_left fs_step app]. rewrite String.eqb_refl.
    rewrite <- (map_map (fun r => date :: VStr "b" :: heap s !!! r)
                  (WriteRow (csv_path E s product)) bids).
    rewrite <- (map_map (fun r => date :: VStr "a" :: heap s !!! r)
                  (WriteRow (csv_path E s product)) asks).
    rewrite <- map_app, file_content_rows. reflexivity. }
  split; [exact Hcontent|]. split; [reflexivity|]. split.
  - intros r price size order_count Hr Hfields. apply in_or_app. left.
    apply in_map_iff. exists r. rewrite Hfields. auto.
  - intros r price size order_count Hr Hfields. apply in_or_app. right.
    apply in_map_iff. exists r. rewrite Hfields. auto.
Qed.

Lemma csv_row_format_witness :
  exists s',
    write_product demo_env demo_snapshot "BTC-USD" demo_buffered
      = (Returns tt, s') /\
    file_content "data/BTC-USD/240.0" (output s') =
      Some [[VStr "1970-01-01 00:04:00+00:00"; VStr "b";
             VStr "103.00"; VStr "0.5"; VInt 1];
            [VStr "1970-01-01 00:04:00+00:00"; VStr "a";
             VStr "203.00"; VStr "0.25"; VInt 2]].
Proof.
  destruct (csv_row_format demo_env demo_snapshot "BTC-USD"
              [("sequence", VInt 3); ("bids", VList 13); ("asks", VList 15)]
              13 15 [12] [14] demo_buffered)
    as (s' & rows & Hrun & Hcontent & Hrows & _).
  - reflexivity.
  - reflexivity.
  - reflexivity.
  - vm_compute. reflexivity.
  - vm_compute. reflexivity.
  - apply (bool_decide_unpack _). vm_compute. exact I.
  - exists s'. split; [exact Hrun|]. rewrite Hrows in Hcontent.
    exact Hcontent.
Defined.

(** C1, which the code does not meet. Five iterations in a world where every
    fetch succeeds: the flush of the fifth gives the rows of all five
    snapshots to [writerow], but the file of the product ends with the rows of
    the fifth snapshot only, since the file is opened anew, and so emptied,
    for each snapshot. *)
Theorem flush_keeps_last_snapshot_only :
  let path := "data/BTC-USD/300.0" in
  let bid n := [VStr "1970-01-01 00:05:00+00:00"; VStr "b";
                VStr (pretty (100 + Z.of_nat n)%Z +:+ ".00");
                VStr "0.5"; VInt 1] in
  let ask n := [VStr "1970-01-01 00:05:00+00:00"; VStr "a";
                VStr (pretty (200 + Z.of_nat n)%Z +:+ ".00");
                VStr "0.25"; VInt 2] in
  flush_count (output demo_end) = 1 /\
  (forall n, n < 5 -> In (WriteRow path (bid n)) (output demo_end)) /\
  file_content path (output demo_end) = Some [bid 4; ask 4] /\
  ~ (forall n, n < 5 ->
       exists rows,
         file_content path (output demo_end) = Some rows /\ In (bid n) rows).
Proof.
  cbn zeta. split_all.
  - vm_compute. reflexivity.
  - intros n Hn.
    destruct n as [|[|[|[|[|n]]]]]; [| | | | |lia]; vm_compute; tauto.
  - vm_compute. reflexivity.
  - intros Hall. destruct (Hall 0) as (rows & Hcontent & Hin); [lia|].
    vm_compute in Hcontent. injection Hcontent as <-.
    vm_compute in Hin. destruct Hin as [Hin|[Hin|[]]]; discriminate Hin.
Qed.

(** ** Iterations *)

Lemma get_order_book_data_frame (E : environment) (product : string)
  (s : state) :
  fetch_frame s (snd (_get_order_book_data E product s)).
Proof.
  destruct (_get_order_book_data E product s) as [r s'] eqn:Hrun.
  unfold _get_order_book_data in Hrun.
  apply connection_retry_spec in Hrun as (k & _ & _ & _ & _ & _ & _ & Hf).
  exact Hf.
Qed.

Lemma fetch_product_frame (E : environment) (product : string)
  (all : snapshot) (s : state) :
  fetch_frame s (snd (fetch_product E product all s)).
Proof.
  pose proof (get_order_book_data_frame E product s) as Hf.
  unfold fetch_product, try_except, bind, ret.
  destruct (_get_order_book_data E product s) as [[v|e] s1]; cbn in *.
  - exact Hf.
  - destruct (is_fetch_error e); exact Hf.
Qed.

Lemma fetch_products_frame (E : environment) (ps : list string) :
  forall all s, fetch_frame s (snd (fetch_products E ps all s)).
Proof.
  induction ps as [|p ps IH]; intros all s; cbn.
  - apply fetch_frame_refl.
  - unfold bind. pose proof (fetch_product_frame E p all s) as Hf.
    destruct (fetch_product E p all s) as [[[all'|stop]|e] s1]; cbn in *.
    + eapply fetch_frame_trans; [exact Hf | apply IH].
    + exact Hf.
    + exact Hf.
Qed.

Lemma fetch_products_fails (E : environment) (ps : list string) (s : state) :
  fetch_fails E ps s ->
  forall all, fst (fetch_products E ps all s) = Returns (inr DataUnavailable).
Proof.
  induction 1 as [p ps s e s' Hget He | p ps s data s' Hget _ IH];
    intros all; cbn; unfold bind, fetch_product, try_except, bind, ret;
    rewrite Hget.
  - rewrite He. reflexivity.
  - cbn. apply IH.
Qed.

Lemma file_content_sleeps (path : string) (evs : list event) (k : nat) (q : Q) :
  file_content path (evs ++ replicate k (Sleep q)) = file_content path evs.
Proof.
  rewrite file_content_app. induction k as [|k IH]; [reflexivity | exact IH].
Qed.

(** C3. When a fetch of the iteration raises [ConnectionError] or
    [JSONDecodeError], [_run_iteration] returns [False]; the buffer is what it
    was, and so are the objects it refers to; nothing but waits between
    attempts happened outside, so no file was made or written. *)
Theorem skip_iteration_atomic (E : environment) (s : state) :
  fetch_fails E (products s) (snd (start_iteration E s)) ->
  exists s',
    _run_iteration E s = (Returns false, s') /\
    order_book_data s' = order_book_data s /\
    (forall l, l < next_loc s -> heap s' !! l = heap s !! l) /\
    (exists k, output s' = output s ++ replicate k (Sleep RATE_LIMIT)) /\
    (forall path, file_content path (output s') = file_content path (output s)).
Proof.
  intros Hfails.
  unfold _run_iteration, bind at 1.
  destruct (start_iteration E s) as [[[]|e] s0] eqn:Hstart;
    [|discriminate Hstart].
  assert (Hs0 : s0 = set_current_time (utcnow E (clock_reads s))
                       (set_clock_reads (S (clock_reads s)) s)).
  { injection Hstart as <-. reflexivity. }
  cbn [snd] in Hfails. unfold gets, bind.
  replace (products s0) with (products s) by (rewrite Hs0; reflexivity).
  pose proof (fetch_products_fails E _ _ Hfails []) as Hr.
  pose proof (fetch_products_frame E (products s) [] s0) as Hf.
  destruct (fetch_products E (products s) [] s0) as [r s1].
  cbn in Hr, Hf. subst r. exists s1.
  destruct Hf as (_ & Hb & _ & _ & _ & _ & Hh & _ & k & Ho).
  rewrite Hs0 in Hb, Hh, Ho. cbn in Hb, Hh, Ho.
  split_all; auto.
  - exists k. exact Ho.
  - intros path. rewrite Ho. apply file_content_sleeps.
Qed.

Lemma skip_iteration_atomic_witness :
  exists s',
    _run_iteration flaky_env flaky_start = (Returns false, s') /\
    order_book_data s' = order_book_data flaky_start /\
    requests s' = requests flaky_start + 6.
Proof.
  destruct (skip_iteration_atomic flaky_env flaky_start)
    as (s' & Hrun & Hbuf & _).
  - eapply fetch_fails_later; [vm_compute; reflexivity|].
    eapply fetch_fails_here; [vm_compute; reflexivity | reflexivity].
  - exists s'. split_all; [exact Hrun | exact Hbuf |].
    assert (Hs' : s' = snd (_run_iteration flaky_env flaky_start))
      by (rewrite Hrun; reflexivity).
    rewrite Hs'. vm_compute. reflexivity.
Defined.

(** ** The buffer *)

Lemma flush_count_app (evs1 evs2 : list event) :
  flush_count (evs1 ++ evs2) = flush_count evs1 + flush_count evs2.
Proof. unfold flush_count. rewrite List.filter_app, length_app. reflexivity. Qed.

Lemma flush_count_sleeps (k : nat) (q : Q) :
  flush_count (replicate k (Sleep q)) = 0.
Proof. induction k as [|k IH]; [reflexivity | exact IH]. Qed.

Lemma flush_count_chunks (E : environment) (s : state) chunks :
  flush_count (flat_map (chunk_events E s) chunks) = 0.
Proof.
  induction chunks as [|[p rows] chunks IH]; [reflexivity|].
  cbn [flat_map]. rewrite flush_count_app, IH, Nat.add_0_r.
  unfold chunk_events, flush_count. cbn.
  induction rows as [|row rows IHrows]; [reflexivity | exact IHrows].
Qed.

Lemma store_unfold (E : environment) (d : snapshot) (s : state) :
  store E d s =
    let s1 := set_order_book_data (order_book_data s ++ [d]) s in
    if (SCRAPES_PER_CSV <=? length (order_book_data s ++ [d]))%nat
    then match write_order_book_csv E s1 with
         | (Returns _, s2) => (Returns true, set_order_book_data [] s2)
         | (Raises e, s2) => (Raises e, s2)
         end
    else (Returns true, s1).
Proof.
  unfold store, modify, gets, bind, ret. cbn [order_book_data set_order_book_data].
  destruct (SCRAPES_PER_CSV <=? length (order_book_data s ++ [d]))%nat;
    [|reflexivity].
  cbn zeta.
  destruct (write_order_book_csv E
              (set_order_book_data (order_book_data s ++ [d]) s))
    as [[[]|e] s2]; reflexivity.
Qed.

(** The three ways an iteration can go, from a buffer below the bound: the
    snapshot fills the buffer, which is flushed; the snapshot is stored; or
    nothing is stored. *)
Lemma run_iteration_cases (E : environment) (s : state) (r : result bool)
  (s' : state) :
  length (order_book_data s) < SCRAPES_PER_CSV ->
  _run_iteration E s = (r, s') ->
  (flush_count (output s') = S (flush_count (output s)) /\
   S (length (order_book_data s)) = SCRAPES_PER_CSV /\
   ((r = Returns true /\ order_book_data s' = []) \/
    ((exists e, r = Raises e) /\
     length (order_book_data s') = SCRAPES_PER_CSV))) \/
  (flush_count (output s') = flush_count (output s) /\
   r = Returns true /\
   length (order_book_data s') = S (length (order_book_data s)) /\
   S (length (order_book_data s)) < SCRAPES_PER_CSV) \/
  (flush_count (output s') = flush_count (output s) /\
   r <> Returns true /\
   order_book_data s' = order_book_data s).
Proof.
  intros Hinv Hrun.
  unfold _run_iteration, bind at 1 in Hrun.
  destruct (start_iteration E s) as [[[]|e] s0] eqn:Hstart;
    [|discriminate Hstart].
  assert (Hs0 : s0 = set_current_time (utcnow E (clock_reads s))
                       (set_clock_reads (S (clock_reads s)) s)).
  { injection Hstart as <-. reflexivity. }
  unfold gets, bind in Hrun.
  replace (products s0) with (products s) in Hrun by (rewrite Hs0; reflexivity).
  pose proof (fetch_products_frame E (products s) [] s0) as Hf.
  destruct (fetch_products E (products s) [] s0) as [rf s1].
  cbn [snd] in Hf.
  destruct Hf as (_ & Hb & _ & _ & _ & _ & _ & _ & k & Ho).
  rewrite Hs0 in Hb, Ho. cbn in Hb, Ho.
  assert (Hcount : flush_count (output s1) = flush_count (output s)).
  { rewrite Ho, flush_count_app, flush_count_sleeps. lia. }
  destruct rf as [[d|stop]|e].
  - rewrite store_unfold in Hrun. cbn zeta in Hrun.
    rewrite Hb, length_app in Hrun. cbn [length] in Hrun.
    destruct (SCRAPES_PER_CSV <=? length (order_book_data s) + 1)%nat eqn:Hfull.
    + apply Nat.leb_le in Hfull. left.
      pose proof (write_order_book_csv_trace E
                    (set_order_book_data (order_book_data s ++ [d]) s1))
        as (Hf & chunks & Hout & _).
      destruct (write_order_book_csv E
                  (set_order_book_data (order_book_data s ++ [d]) s1))
        as [rw s2].
      cbn [snd] in Hf, Hout.
      destruct Hf as (_ & Hb2 & _). cbn in Hb2, Hout.
      assert (Hcount2 : flush_count (output s2) = S (flush_count (output s))).
      { rewrite Hout, flush_count_app. 
        change (Flush :: ?l) with ([Flush] ++ l).
        rewrite flush_count_app, flush_count_chunks, Hcount. cbn. lia. }
      split; [|split; [lia|]].
      * destruct rw as [[]|e]; injection Hrun as <- <-; exact Hcount2.
      * destruct rw as [[]|e]; injection Hrun as <- <-.
        -- left. split; reflexivity.
        -- right. split; [eexists; reflexivity|].
           rewrite Hb2, length_app. cbn. lia.
    + apply Nat.leb_gt in Hfull. injection Hrun as <- <-.
      right. left. cbn. rewrite length_app. cbn. split_all; auto; lia.
  - injection Hrun as <- <-. right. right. split_all; auto; discriminate.
  - injection Hrun as <- <-. right. right. split_all; auto; discriminate.
Qed.

Lemma run_loop_bound (E : environment) (fuel : nat) (start_time : Q) :
  forall s r s',
    length (order_book_data s) < SCRAPES_PER_CSV ->
    run_loop E fuel start_time s = (r, s') ->
    length (order_book_data s') <= SCRAPES_PER_CSV /\
    (r = Returns tt -> length (order_book_data s') < SCRAPES_PER_CSV).
Proof.
  induction fuel as [|fuel IH]; intros s r s' Hinv Hrun.
  - injection Hrun as <- <-. split; [lia | intros _; exact Hinv].
  - cbn [run_loop] in Hrun. unfold bind at 1 in Hrun.
    destruct (_run_iteration E s) as [r1 s1] eqn:Hiter.
    pose proof (run_iteration_cases E s r1 s1 Hinv Hiter) as Hcases.
    destruct r1 as [success|e].
    + unfold time_now, sleep, emit, modify, bind in Hrun.
      apply IH in Hrun; [exact Hrun|]. cbn.
      destruct Hcases as [(_ & _ & [[_ ->]|[[e He] _]])
                         |[(_ & _ & -> & Hlt)|(_ & _ & ->)]];
        [cbn; unfold SCRAPES_PER_CSV; lia | discriminate He | exact Hlt
        | exact Hinv].
    + injection Hrun as <- <-. split; [|discriminate].
      destruct Hcases as [(_ & _ & [[Hr _]|[_ ->]])
                         |[(_ & Hr & _)|(_ & _ & ->)]];
        [discriminate Hr | lia | discriminate Hr | lia].
Qed.

(** C5. From a buffer below [SCRAPES_PER_CSV = 5], as the one [__init__]
    makes, no run of iterations takes the buffer above the bound, and it is
    below the bound again after every iteration that ends. In one iteration
    the buffer is flushed exactly when the new snapshot takes it to the bound;
    after the flush it is empty. *)
Theorem buffer_bound_invariant (E : environment) :
  SCRAPES_PER_CSV = 5 /\
  order_book_data (__init__ E) = [] /\
  (forall fuel s r s',
     length (order_book_data s) < SCRAPES_PER_CSV ->
     run E fuel s = (r, s') ->
     length (order_book_data s') <= SCRAPES_PER_CSV /\
     (r = Returns tt -> length (order_book_data s') < SCRAPES_PER_CSV)) /\
  (forall s r s',
     length (order_book_data s) < SCRAPES_PER_CSV ->
     _run_iteration E s = (r, s') ->
     (flush_count (output s') = S (flush_count (output s)) /\
      r <> Returns false /\
      S (length (order_book_data s)) = SCRAPES_PER_CSV /\
      (r = Returns true -> order_book_data s' = [])) \/
     (flush_count (output s') = flush_count (output s) /\
      (r = Returns true ->
       length (order_book_data s') = S (length (order_book_data s)) /\
       S (length (order_book_data s)) < SCRAPES_PER_CSV))).
Proof.
  split_all.
  - reflexivity.
  - reflexivity.
  - intros fuel s r s' Hinv Hrun. unfold run, time_now, bind in Hrun.
    apply run_loop_bound in Hrun; [exact Hrun | exact Hinv].
  - intros s r s' Hinv Hrun.
    destruct (run_iteration_cases E s r s' Hinv Hrun)
      as [(Hc & Hlen & Hr)|[(Hc & Hr & Hlen & Hlt)|(Hc & Hr & Hb)]].
    + left. split_all; auto.
      * destruct Hr as [[-> _]|[[e ->] _]]; discriminate.
      * intros ->. destruct Hr as [[_ Hb]|[[e He] _]];
          [exact Hb | discriminate He].
    + right. split; [exact Hc|]. intros _. split; assumption.
    + right. split; [exact Hc|]. intros Hr'. contradiction.
Qed.

Lemma buffer_bound_invariant_witness :
  length (order_book_data demo_end) <= SCRAPES_PER_CSV /\
  length (order_book_data demo_buffered) < SCRAPES_PER_CSV.
Proof.
  split.
  - apply (proj1 (proj2 (proj2 (buffer_bound_invariant demo_env)))
             5 demo_start (fst (run demo_env 5 demo_start)) demo_end).
    + vm_compute. lia.
    + vm_compute. reflexivity.
  - apply (proj1 (proj2 (proj2 (buffer_bound_invariant demo_env)))
             4 demo_start (fst (run demo_env 4 demo_start)) demo_buffered).
    + vm_compute. lia.
    + vm_compute. reflexivity.
    + vm_compute. reflexivity.
Defined.

(** ** The date of a flush *)



(** * Further properties *)

(** ** The snapshot of an iteration *)

Lemma dict_keys_set_known {V : Type} (d : list (string * V)) (k : string)
  (v : V) :
  In k (dict_keys d) -> dict_keys (dict_set d k v) = dict_keys d.
Proof.
  unfold dict_keys.
  induction d as [|[k' v'] d IH]; cbn; [tauto|]. intros Hin.
  destruct (String.eqb k k') eqn:Hk; cbn; [reflexivity|].
  f_equal. apply IH. destruct Hin as [->|Hin]; [|exact Hin].
  rewrite String.eqb_refl in Hk. discriminate.
Qed.

Lemma dict_keys_set_new {V : Type} (d : list (string * V)) (k : string)
  (v : V) :
  ~ In k (dict_keys d) -> dict_keys (dict_set d k v) = dict_keys d ++ [k].
Proof.
  unfold dict_keys.
  induction d as [|[k' v'] d IH]; cbn; [reflexivity|]. intros Hin.
  destruct (String.eqb k k') eqn:Hk; cbn.
  - apply String.eqb_eq in Hk. subst k'. tauto.
  - f_equal. apply IH. tauto.
Qed.

Lemma dict_get_is_Some {V : Type} (d : list (string * V)) (k : string) :
  is_Some (dict_get d k) <-> In k (dict_keys d).
Proof.
  unfold dict_keys.
  induction d as [|[k' v'] d IH]; cbn.
  - split; [intros [v Hv]; discriminate | tauto].
  - destruct (String.eqb k k') eqn:Hk.
    + apply String.eqb_eq in Hk. subst k'. split; [auto | eauto].
    + rewrite IH. split; [auto|]. intros [->|Hin]; [|exact Hin].
      rewrite String.eqb_refl in Hk. discriminate.
Qed.

Lemma dict_get_set_same {V : Type} (d : list (string * V)) (k : string)
  (v : V) :
  dict_get (dict_set d k v) k = Some v.
Proof.
  induction d as [|[k' v'] d IH]; cbn.
  - rewrite String.eqb_refl. reflexivity.
  - destruct (String.eqb k k') eqn:Hk; cbn; rewrite Hk; auto.
Qed.

Lemma fetch_product_stores (E : environment) (product : string)
  (all d : snapshot) (s s' : state) :
  fetch_product E product all s = (Returns (inl d), s') ->
  exists data,
    _get_order_book_data E product s = (Returns data, s') /\
    d = dict_set all product data.
Proof.
  unfold fetch_product, try_except, bind, ret.
  destruct (_get_order_book_data E product s) as [[data|e] s1]; cbn.
  - intros H. injection H as <- <-. eauto.
  - destruct (is_fetch_error e); discriminate.
Qed.

Lemma fetch_products_keys_from (E : environment) (ps : list string) :
  forall all s d s',
    fetch_products E ps all s = (Returns (inl d), s') ->
    NoDup (dict_keys all) ->
    NoDup (dict_keys d) /\
    (forall p, In p (dict_keys d) <-> In p (dict_keys all) \/ In p ps) /\
    (NoDup ps -> (forall p, In p ps -> ~ In p (dict_keys all)) ->
     dict_keys d = dict_keys all ++ ps).
Proof.
  induction ps as [|p ps IH]; intros all s d s' Hrun Hnd.
  - injection Hrun as <- <-. split_all; auto.
    + intros p. cbn. tauto.
    + intros _ _. rewrite app_nil_r. reflexivity.
  - cbn [fetch_products] in Hrun. unfold bind at 1 in Hrun.
    destruct (fetch_product E p all s) as [[[all'|stop]|e] s1] eqn:Hone;
      [|discriminate Hrun|discriminate Hrun].
    apply fetch_product_stores in Hone as (data & _ & ->).
    assert (Hkeys : (In p (dict_keys all) /\
                     dict_keys (dict_set all p data) = dict_keys all) \/
                    (~ In p (dict_keys all) /\
                     dict_keys (dict_set all p data) = dict_keys all ++ [p])).
    { destruct (in_dec String.string_dec p (dict_keys all)) as [Hin|Hin].
      - left. split; [exact Hin | apply dict_keys_set_known, Hin].
      - right. split; [exact Hin | apply dict_keys_set_new, Hin]. }
    assert (Hnd' : NoDup (dict_keys (dict_set all p data))).
    { destruct Hkeys as [[_ ->]|[Hin ->]]; [exact Hnd|].
      apply NoDup_app. split_all; [exact Hnd | | apply NoDup_singleton].
      intros x Hx Hx'. apply list_elem_of_In in Hx.
      apply list_elem_of_singleton in Hx'. subst x. contradiction. }
    apply IH in Hrun as (Hnd_d & Hmem & Hord); [|exact Hnd'].
    split_all.
    + exact Hnd_d.
    + intros q. rewrite Hmem. cbn [In].
      destruct Hkeys as [[Hin ->]|[_ ->]].
      * split; [tauto|]. intros [Hq|[<-|Hq]]; auto.
      * rewrite in_app_iff. cbn. tauto.
    + intros Hps Hfresh. apply NoDup_cons in Hps as [Hp Hps].
      rewrite list_elem_of_In in Hp.
      destruct Hkeys as [[Hin _]|[_ Hk]].
      * exfalso. apply (Hfresh p); [left; reflexivity | exact Hin].
      * rewrite Hord, Hk, <- app_assoc; [reflexivity | exact Hps |].
        intros q Hq. rewrite Hk, in_app_iff. cbn.
        intros [Hq'|[<-|[]]]; [|contradiction].
        apply (Hfresh q); [right; exact Hq | exact Hq'].
Qed.

(** X1. The snapshot an iteration builds has one entry for each tracked
    product and no other: a product tracked twice is fetched twice and stored
    once. When no product is tracked twice the keys are the tracked products,
    in their order. *)
Theorem snapshot_keys_are_products (E : environment) (ps : list string)
  (s : state) (order_book_data_all : snapshot) (s' : state) :
  fetch_products E ps [] s = (Returns (inl order_book_data_all), s') ->
  NoDup (dict_keys order_book_data_all) /\
  (forall p, In p (dict_keys order_book_data_all) <-> In p ps) /\
  (forall p, In p ps -> is_Some (dict_get order_book_data_all p)) /\
  (NoDup ps -> dict_keys order_book_data_all = ps).
Proof.
  intros Hrun.
  apply fetch_products_keys_from in Hrun as (Hnd & Hmem & Hord);
    [|apply NoDup_nil_2].
  split_all.
  - exact Hnd.
  - intros p. rewrite Hmem. cbn. tauto.
  - intros p Hp. apply dict_get_is_Some, Hmem. right. exact Hp.
  - intros Hps. apply Hord; [exact Hps|]. intros p _ [].
Qed.

Lemma snapshot_keys_are_products_witness :
  let ps := ["BTC-USD"; "ETH-USD"; "BTC-USD"] in
  let d := match fst (fetch_products demo_env ps [] demo_start) with
           | Returns (inl d) => d
           | _ => []
           end in
  NoDup (dict_keys d) /\
  (forall p, In p (dict_keys d) <-> In p ps) /\
  (forall p, In p ps -> is_Some (dict_get d p)).
Proof.
  intros ps d.
  destruct (snapshot_keys_are_products demo_env ps demo_start d
              (snd (fetch_products demo_env ps [] demo_start)))
    as (Hnd & Hmem & Hsome & _).
  - vm_compute. reflexivity.
  - split_all; [exact Hnd | exact Hmem | exact Hsome].
Defined.

(** ** Leaving the loop over the products *)

(** X2. The loop over the products ends at the first fetch that raises
    [ConnectionError] or [JSONDecodeError]: the products after it are not
    fetched, whatever they are, and what was fetched before is dropped. *)
Theorem fetch_stops_at_failure (E : environment) (ps : list string)
  (s : state) :
  fetch_fails E ps s ->
  exists s',
    forall rest order_book_data_all,
      fetch_products E (ps ++ rest) order_book_data_all s
        = (Returns (inr DataUnavailable), s') /\
      fetch_products E ps order_book_data_all s
        = (Returns (inr DataUnavailable), s').
Proof.
  induction 1 as [p ps s e s' Hget He | p ps s data s' Hget _ [s'' IH]].
  - exists s'. intros rest all. cbn [app fetch_products].
    unfold bind, fetch_product, try_except, bind, ret.
    rewrite Hget, He. split; reflexivity.
  - exists s''. intros rest all. cbn [app fetch_products].
    unfold bind, fetch_product, try_except, bind, ret.
    rewrite Hget. cbn -[fetch_products]. apply IH.
Qed.

Lemma fetch_stops_at_failure_witness :
  exists s',
    fetch_products flaky_env ["BTC-USD"; "ETH-USD"; "LTC-USD"] [] flaky_start
      = (Returns (inr DataUnavailable), s') /\
    requests s' = requests flaky_start + 6.
Proof.
  destruct (fetch_stops_at_failure flaky_env ["BTC-USD"; "ETH-USD"] flaky_start)
    as (s' & Hstop).
  - eapply fetch_fails_later; [vm_compute; reflexivity|].
    eapply fetch_fails_here; [vm_compute; reflexivity | reflexivity].
  - exists s'. destruct (Hstop ["LTC-USD"] []) as (Hrun & _).
    split; [exact Hrun|].
    assert (Hs' : s' = snd (fetch_products flaky_env
                              ["BTC-USD"; "ETH-USD"; "LTC-USD"] [] flaky_start))
      by (cbn [app] in Hrun; rewrite Hrun; reflexivity).
    rewrite Hs'. vm_compute. reflexivity.
Defined.

Lemma fetch_products_crashes (E : environment) (e : exn) (ps : list string)
  (s : state) :
  fetch_crashes E e ps s ->
  forall all, fst (fetch_products E ps all s) = Raises e.
Proof.
  induction 1 as [p ps s s' Hget He | p ps s data s' Hget _ IH];
    intros all; cbn; unfold bind, fetch_product, try_except, bind, ret;
    rewrite Hget.
  - rewrite He. reflexivity.
  - cbn. apply IH.
Qed.

(** X3. An exception of a fetch that is neither [ConnectionError] nor
    [JSONDecodeError] is not caught: [_run_iteration] raises it, with the
    buffer and every file as they were, and [run] ends there without
    sleeping. *)
Theorem other_exception_stops_run (E : environment) (e : exn) (s : state) :
  fetch_crashes E e (products s) (snd (start_iteration E s)) ->
  exists s',
    _run_iteration E s = (Raises e, s') /\
    order_book_data s' = order_book_data s /\
    (forall path, file_content path (output s') = file_content path (output s)) /\
    (forall fuel start_time,
       run_loop E (S fuel) start_time s = (Raises e, s')).
Proof.
  intros Hcrash.
  assert (Hiter : exists s',
            _run_iteration E s = (Raises e, s') /\
            order_book_data s' = order_book_data s /\
            exists k, output s' = output s ++ replicate k (Sleep RATE_LIMIT)).
  { unfold _run_iteration, bind at 1.
    destruct (start_iteration E s) as [[[]|e0] s0] eqn:Hstart;
      [|discriminate Hstart].
    assert (Hs0 : s0 = set_current_time (utcnow E (clock_reads s))
                         (set_clock_reads (S (clock_reads s)) s)).
    { injection Hstart as <-. reflexivity. }
    cbn [snd] in Hcrash. unfold gets, bind.
    replace (products s0) with (products s) by (rewrite Hs0; reflexivity).
    pose proof (fetch_products_crashes E e _ _ Hcrash []) as Hr.
    pose proof (fetch_products_frame E (products s) [] s0) as Hf.
    destruct (fetch_products E (products s) [] s0) as [r s1].
    cbn in Hr, Hf. subst r. exists s1.
    destruct Hf as (_ & Hb & _ & _ & _ & _ & _ & _ & k & Ho).
    rewrite Hs0 in Hb, Ho. cbn in Hb, Ho. split_all; eauto. }
  destruct Hiter as (s' & Hrun & Hb & k & Ho).
  exists s'. split_all; auto.
  - intros path. rewrite Ho. apply file_content_sleeps.
  - intros fuel start_time. cbn [run_loop]. unfold bind at 1.
    rewrite Hrun. reflexivity.
Qed.

Lemma other_exception_stops_run_witness :
  exists s',
    run_loop timeout_env 3 0 demo_start
      = (Raises (OtherError "ReadTimeout"), s') /\
    output s' = [] /\ requests s' = 1.
Proof.
  destruct (other_exception_stops_run timeout_env (OtherError "ReadTimeout")
              demo_start) as (s' & Hiter & _ & _ & Hrun).
  - eapply fetch_crashes_here; [vm_compute; reflexivity | reflexivity].
  - exists s'. split; [apply Hrun|].
    assert (Hs' : s' = snd (_run_iteration timeout_env demo_start))
      by (rewrite Hiter; reflexivity).
    rewrite Hs'. vm_compute. split; reflexivity.
Defined.

(** X4. An iteration whose fetches all return and whose snapshot does not
    fill the buffer returns [True]: the snapshot goes to the end of the
    buffer, which is not flushed, and no file is made or written. *)
Theorem stored_iteration_writes_nothing (E : environment) (s s1 : state)
  (order_book_data_all : snapshot) :
  fetch_products E (products s) [] (snd (start_iteration E s))
    = (Returns (inl order_book_data_all), s1) ->
  S (length (order_book_data s)) < SCRAPES_PER_CSV ->
  exists s',
    _run_iteration E s = (Returns true, s') /\
    order_book_data s' = order_book_data s ++ [order_book_data_all] /\
    current_time s' = utcnow E (clock_reads s) /\
    flush_count (output s') = flush_count (output s) /\
    (forall path, file_content path (output s') = file_content path (output s)).
Proof.
  intros Hfetch Hlen.
  pose proof (fetch_products_frame E (products s) []
                (snd (start_iteration E s))) as Hf.
  rewrite Hfetch in Hf. cbn [snd] in Hf.
  destruct Hf as (_ & Hb & Ht & _ & _ & _ & _ & _ & k & Ho).
  cbn in Hb, Ht, Ho.
  exists (set_order_book_data (order_book_data s ++ [order_book_data_all]) s1).
  split_all.
  - unfold _run_iteration, bind at 1.
    destruct (start_iteration E s) as [[[]|e] s0] eqn:Hstart;
      [|discriminate Hstart].
    assert (Hps : products s0 = products s)
      by (injection Hstart as <-; reflexivity).
    unfold gets, bind. rewrite Hps. cbn [snd] in Hfetch. rewrite Hfetch.
    rewrite store_unfold. cbn zeta. rewrite Hb, length_app. cbn [length].
    destruct (SCRAPES_PER_CSV <=? length (order_book_data s) + 1)%nat eqn:Hfull;
      [|reflexivity].
    apply Nat.leb_le in Hfull. lia.
  - reflexivity.
  - exact Ht.
  - cbn [output set_order_book_data].
    rewrite Ho, flush_count_app, flush_count_sleeps. lia.
  - intros path. cbn [output set_order_book_data].
    rewrite Ho. apply file_content_sleeps.
Qed.

Lemma stored_iteration_writes_nothing_witness :
  exists s',
    _run_iteration demo_env demo_start = (Returns true, s') /\
    length (order_book_data s') = 1 /\
    flush_count (output s') = 0.
Proof.
  destruct (stored_iteration_writes_nothing demo_env demo_start
              (snd (fetch_products demo_env (products demo_start) []
                      (snd (start_iteration demo_env demo_start))))
              [("BTC-USD",
                VDict [("sequence", VInt 0); ("bids", VList 1);
                       ("asks", VList 3)])])
    as (s' & Hrun & Hbuf & _ & Hcount & _).
  - vm_compute. reflexivity.
  - vm_compute. lia.
  - exists s'. split; [exact Hrun|]. rewrite Hbuf, Hcount.
    split; reflexivity.
Defined.

(** ** What a flush touches *)

Lemma py_getitem_state (obj : pyval) (k : key) (s : state) :
  snd (py_getitem obj k s) = s.
Proof.
  unfold py_getitem. destruct obj, k; try reflexivity.
  - destruct (seq_index (string_chars s0) i); reflexivity.
  - destruct (seq_index (heap s !!! l) i); reflexivity.
  - destruct (seq_index items i); reflexivity.
  - destruct (dict_get entries s0); reflexivity.
Qed.

Lemma py_iter_state (obj : pyval) (s : state) : snd (py_iter obj s) = s.
Proof. destruct obj; reflexivity. Qed.

Lemma flush_local_refl (s : state) : flush_local s s.
Proof.
  split; [apply flush_frame_refl|]. split; [reflexivity|].
  exists []. rewrite app_nil_r. auto.
Qed.

Lemma flush_local_trans (s1 s2 s3 : state) :
  flush_local s1 s2 -> flush_local s2 s3 -> flush_local s1 s3.
Proof.
  intros (Hf & Hh & evs & Ho & He) (Hf' & Hh' & evs' & Ho' & He').
  split; [eapply flush_frame_trans; eauto|]. split.
  - intros l. etransitivity; [apply Hh | apply Hh'].
  - exists (evs ++ evs'). split.
    + rewrite Ho', Ho, <- app_assoc. reflexivity.
    + apply Forall_app. auto.
Qed.

Lemma write_row_local (E : environment) (path ot : string) (row : pyval)
  (s : state) :
  flush_local s (snd (write_row E path ot row s)).
Proof.
  unfold write_row, bind.
  destruct (has_insert row) eqn:Hrow.
  - destruct row; try discriminate Hrow. rewrite prepare_list.
    unfold_monad. cbn. rewrite lookup_total_insert_eq.
    split; [unfold flush_frame; cbn; split_all; reflexivity|]. split.
    + intros l0. cbn [heap set_output set_heap].
      destruct (decide (l = l0)) as [->|Hne].
      * rewrite lookup_total_insert_eq. do 2 apply suffix_cons_r. reflexivity.
      * rewrite lookup_total_insert_ne by exact Hne. reflexivity.
    + eexists [_]. split; [reflexivity|]. repeat constructor.
  - rewrite prepare_other by exact Hrow. rewrite writerow_none.
    apply flush_local_refl.
Qed.

Lemma write_order_type_local (E : environment) (path : string) (book : pyval)
  (order_type : string * string) (s : state) :
  flush_local s (snd (write_order_type E path book order_type s)).
Proof.
  unfold write_order_type, bind.
  pose proof (py_getitem_state book (KStr (fst order_type)) s) as Hget.
  destruct (py_getitem book (KStr (fst order_type)) s) as [[rows|e] s1];
    cbn in Hget; subst s1; [|apply flush_local_refl].
  pose proof (py_iter_state rows s) as Hiter.
  destruct (py_iter rows s) as [[items|e] s1];
    cbn in Hiter; subst s1; [|apply flush_local_refl].
  apply for_each_rel.
  - apply flush_local_refl.
  - apply flush_local_trans.
  - intros row s0 _. apply write_row_local.
Qed.

Lemma write_product_local (E : environment) (order_book_data : snapshot)
  (product : string) (s : state) :
  flush_local s (snd (write_product E order_book_data product s)).
Proof.
  unfold write_product, makedirs, open_w, emit, modify, gets, bind.
  cbn -[for_each order_types csv_path product_dir].
  match goal with
  | |- flush_local s (snd (for_each order_types ?body ?s2)) =>
      apply (flush_local_trans s s2)
  end.
  - split; [unfold flush_frame; cbn; split_all; reflexivity|].
    split; [reflexivity|].
    eexists [_; _]. cbn. rewrite <- app_assoc. split; [reflexivity|].
    repeat constructor.
  - apply for_each_rel.
    + apply flush_local_refl.
    + apply flush_local_trans.
    + intros order_type s0 _.
      destruct (dict_get order_book_data product) as [book|].
      * apply write_order_type_local.
      * apply flush_local_refl.
Qed.

Lemma write_snapshots_local (E : environment) (buffer : list snapshot)
  (s : state) :
  flush_local s (snd (for_each buffer (write_snapshot E) s)).
Proof.
  apply for_each_rel.
  - apply flush_local_refl.
  - apply flush_local_trans.
  - intros order_book_data s0 _. unfold write_snapshot. apply for_each_rel.
    + apply flush_local_refl.
    + apply flush_local_trans.
    + intros product s1 _. apply write_product_local.
Qed.

Lemma write_order_book_csv_local (E : environment) (s : state) :
  flush_frame s (snd (write_order_book_csv E s)) /\
  (forall l, heap s !!! l `suffix_of` heap (snd (write_order_book_csv E s)) !!! l) /\
  exists evs,
    output (snd (write_order_book_csv E s)) = output s ++ Flush :: evs /\
    Forall (fun e => is_file_event e = true) evs.
Proof.
  unfold write_order_book_csv, emit, modify, gets, bind.
  cbn -[for_each].
  pose proof (write_snapshots_local E (order_book_data s)
                (set_output (output s ++ [Flush]) s))
    as (Hf & Hh & evs & Ho & He).
  split_all.
  - unfold flush_frame in *. cbn in Hf. exact Hf.
  - exact Hh.
  - exists evs. split; [|exact He].
    etransitivity; [exact Ho|]. cbn. rewrite <- app_assoc. reflexivity.
Qed.

(** X5. [write_order_book_csv] works on files only: it sends no request,
    reads no clock, never sleeps and makes no object; it leaves the attributes
    of the scraper as they are, the buffer too, which only the caller
    empties; and in the heap it only adds to the front of list objects. This
    holds also when it raises. *)
Theorem flush_touches_files_only (E : environment) (s : state) :
  let s' := snd (write_order_book_csv E s) in
  products s' = products s /\
  order_book_data s' = order_book_data s /\
  current_time s' = current_time s /\
  csv_directory s' = csv_directory s /\
  next_loc s' = next_loc s /\
  requests s' = requests s /\
  clock_reads s' = clock_reads s /\
  (forall l, heap s !!! l `suffix_of` heap s' !!! l) /\
  exists evs,
    output s' = output s ++ Flush :: evs /\
    Forall (fun e => is_file_event e = true) evs.
Proof.
  cbn zeta.
  destruct (write_order_book_csv_local E s)
    as ((Hp & Hb & Ht & Hd & Hn & Hr & Hc) & Hh & Hev).
  split_all; auto.
Qed.

(** ** The sleeps of a run *)






(** ** A scraper that tracks nothing *)

Lemma write_empty_snapshots (E : environment) (buffer : list snapshot)
  (s : state) :
  Forall (fun d => d = []) buffer ->
  for_each buffer (write_snapshot E) s = (Returns tt, s).
Proof.
  induction 1 as [|d buffer -> _ IH]; [reflexivity|].
  cbn [for_each]. unfold bind. cbn. exact IH.
Qed.

Lemma file_content_no_file_events (path : string) (evs1 evs2 : list event) :
  Forall (fun e => is_file_event e = false) evs2 ->
  file_content path (evs1 ++ evs2) = file_content path evs1.
Proof.
  intros Hev. rewrite file_content_app.
  generalize (file_content path evs1).
  induction Hev as [|e evs He _ IH]; intros c; [reflexivity|].
  cbn [fold_left]. rewrite IH. destruct e; try reflexivity; discriminate He.
Qed.

Lemma idle_iteration (E : environment) (s : state) :
  products s = [] ->
  Forall (fun d => d = []) (order_book_data s) ->
  exists s',
    _run_iteration E s = (Returns true, s') /\
    products s' = [] /\
    Forall (fun d => d = []) (order_book_data s') /\
    requests s' = requests s /\
    heap s' = heap s /\
    exists evs,
      output s' = output s ++ evs /\
      Forall (fun e => is_file_event e = false) evs.
Proof.
  intros Hps Hbuf.
  unfold _run_iteration, start_iteration, datetime_now, modify, gets, bind.
  cbn [products set_current_time set_clock_reads]. rewrite Hps.
  cbn [fetch_products]. unfold ret at 1. rewrite store_unfold. cbn zeta.
  cbn [order_book_data set_current_time set_clock_reads].
  match goal with
  | |- context [if ?full then _ else _] => destruct full
  end.
  - unfold write_order_book_csv, emit, modify, gets, bind.
    cbn [order_book_data set_order_book_data set_output].
    rewrite write_empty_snapshots
      by (apply Forall_app; split; [exact Hbuf | repeat constructor]).
    eexists. split; [reflexivity|]. cbn.
    split_all; auto. exists [Flush]. split; [reflexivity|].
    repeat constructor.
  - eexists. split; [reflexivity|]. cbn.
    split_all; auto.
    + apply Forall_app. split; [exact Hbuf | repeat constructor].
    + exists []. rewrite app_nil_r. auto.
Qed.

Lemma idle_run_loop (E : environment) (fuel : nat) (start_time : Q) :
  forall s,
    products s = [] ->
    Forall (fun d => d = []) (order_book_data s) ->
    exists s',
      run_loop E fuel start_time s = (Returns tt, s') /\
      requests s' = requests s /\
      heap s' = heap s /\
      exists evs,
        output s' = output s ++ evs /\
        Forall (fun e => is_file_event e = false) evs.
Proof.
  induction fuel as [|fuel IH]; intros s Hps Hbuf.
  - exists s. split_all; auto. exists []. rewrite app_nil_r. auto.
  - destruct (idle_iteration E s Hps Hbuf)
      as (s1 & Hiter & Hps1 & Hbuf1 & Hr1 & Hh1 & evs1 & Ho1 & He1).
    rewrite (run_loop_sleeps E fuel start_time s s1 true Hiter).
    match goal with
    | |- context [run_loop E fuel start_time ?s2] =>
        destruct (IH s2) as (s' & Hrun & Hr & Hh & evs & Ho & He);
        [exact Hps1 | exact Hbuf1 |]
    end.
    cbn in Hr, Hh, Ho.
    exists s'. split_all; [exact Hrun | congruence | congruence |].
    eexists (evs1 ++ [_] ++ evs). split.
    + rewrite Ho, Ho1, <- !app_assoc. reflexivity.
    + apply Forall_app. split; [exact He1|].
      apply Forall_app. split; [repeat constructor | exact He].
Qed.

(** X6. A scraper that tracks no product, as [__init__] leaves it, runs for
    ever without an exception: every iteration stores an empty snapshot,
    every fifth one flushes nothing, no request is sent and no file is made
    or written. *)
Theorem run_without_products (E : environment) (fuel : nat) (s : state) :
  products s = [] ->
  Forall (fun d => d = []) (order_book_data s) ->
  exists s',
    run E fuel s = (Returns tt, s') /\
    requests s' = requests s /\
    heap s' = heap s /\
    (exists evs,
       output s' = output s ++ evs /\
       Forall (fun e => is_file_event e = false) evs) /\
    (forall path, file_content path (output s') = file_content path (output s)).
Proof.
  intros Hps Hbuf. unfold run, time_now, bind.
  destruct (idle_run_loop E fuel (time_time E (clock_reads s))
              (set_clock_reads (S (clock_reads s)) s) Hps Hbuf)
    as (s' & Hrun & Hr & Hh & evs & Ho & He).
  cbn in Hr, Hh, Ho.
  exists s'. split_all; auto.
  - exists evs. auto.
  - intros path. rewrite Ho. apply file_content_no_file_events, He.
Qed.

Lemma run_without_products_witness :
  exists s',
    run demo_env 12 (__init__ demo_env) = (Returns tt, s') /\
    requests s' = 0 /\
    file_content "data/BTC-USD/300.0" (output s') = None.
Proof.
  destruct (run_without_products demo_env 12 (__init__ demo_env))
    as (s' & Hrun & Hr & _ & _ & Hfiles).
  - reflexivity.
  - constructor.
  - exists s'. split_all; [exact Hrun | exact Hr | apply Hfiles].
Defined.

(** ** The cadence of the flushes *)

Lemma get_order_book_data_replied (E : environment) (product : string)
  (s : state) :
  (forall n p, exists body, http_get E n p = Reply body) ->
  exists data s', _get_order_book_data E product s = (Returns data, s').
Proof.
  intros Hreply.
  destruct (_get_order_book_data E product s) as [r s'] eqn:Hrun.
  unfold _get_order_book_data in Hrun.
  apply connection_retry_spec in Hrun as (k & _ & _ & _ & _ & _ & Hres & _).
  unfold outcome in Hres.
  destruct (Hreply (requests s + (k - 1)) product) as [body Hbody].
  rewrite Hbody in Hres. subst r. eauto.
Qed.

Lemma fetch_products_replied (E : environment) (ps : list string) :
  (forall n p, exists body, http_get E n p = Reply body) ->
  forall all s, exists d s',
    fetch_products E ps all s = (Returns (inl d), s').
Proof.
  intros Hreply. induction ps as [|p ps IH]; intros all s.
  - exists all, s. reflexivity.
  - cbn [fetch_products]. unfold bind, fetch_product, try_except, bind, ret.
    destruct (get_order_book_data_replied E p s Hreply) as (data & s1 & ->).
    cbn -[fetch_products]. apply IH.
Qed.

Lemma run_iteration_store (E : environment) (s s1 : state) (d : snapshot) :
  fetch_products E (products s) [] (snd (start_iteration E s))
    = (Returns (inl d), s1) ->
  _run_iteration E s = store E d s1.
Proof.
  intros Hfetch. unfold _run_iteration, bind at 1.
  destruct (start_iteration E s) as [[[]|e] s0] eqn:Hstart;
    [|discriminate Hstart].
  assert (Hps : products s0 = products s)
    by (injection Hstart as <-; reflexivity).
  unfold gets, bind. rewrite Hps.
  cbn [snd] in Hfetch. rewrite Hfetch. reflexivity.
Qed.

Lemma store_returns_true (E : environment) (d : snapshot) (s : state)
  (b : bool) (s' : state) :
  store E d s = (Returns b, s') -> b = true.
Proof.
  rewrite store_unfold. cbn zeta.
  match goal with
  | |- context [if ?full then _ else _] => destruct full
  end.
  - destruct (write_order_book_csv E _) as [[[]|e] s2]; congruence.
  - congruence.
Qed.

Lemma run_loop_cadence (E : environment) (fuel : nat) (start_time : Q) :
  (forall n p, exists body, http_get E n p = Reply body) ->
  forall s s',
    length (order_book_data s) < SCRAPES_PER_CSV ->
    run_loop E fuel start_time s = (Returns tt, s') ->
    exists flushes,
      length (order_book_data s) + fuel
        = SCRAPES_PER_CSV * flushes + length (order_book_data s') /\
      length (order_book_data s') < SCRAPES_PER_CSV /\
      flush_count (output s') = flush_count (output s) + flushes.
Proof.
  intros Hreply. induction fuel as [|fuel IH]; intros s s' Hinv Hrun.
  - injection Hrun as <-. exists 0. lia.
  - destruct (_run_iteration E s) as [[b|e] s1] eqn:Hiter.
    + rewrite (run_loop_sleeps E fuel start_time s s1 b Hiter) in Hrun.
      assert (Hb : b = true).
      { destruct (fetch_products_replied E (products s) Hreply []
                    (snd (start_iteration E s))) as (d & s0 & Hfetch).
        rewrite (run_iteration_store E s s0 d Hfetch) in Hiter.
        eapply store_returns_true, Hiter. }
      subst b.
      pose proof (run_iteration_cases E s _ s1 Hinv Hiter) as Hcases.
      assert (Hstep :
        (S (length (order_book_data s)) = SCRAPES_PER_CSV /\
         order_book_data s1 = [] /\
         flush_count (output s1) = S (flush_count (output s))) \/
        (S (length (order_book_data s)) < SCRAPES_PER_CSV /\
         length (order_book_data s1) = S (length (order_book_data s)) /\
         flush_count (output s1) = flush_count (output s))).
      { destruct Hcases as [(Hc & Hlen & [[_ Hb]|[[e He] _]])
                           |[(Hc & _ & Hlen & Hlt)|(_ & Hne & _)]].
        - left. auto.
        - discriminate He.
        - right. auto.
        - contradiction. }
      apply IH in Hrun as (q & Hsum & Hlt & Hcount).
      * cbn [order_book_data output set_output set_clock_reads] in Hsum, Hcount.
        rewrite flush_count_app in Hcount. cbn in Hcount.
        destruct Hstep as [(Hfull & Hempty & Hc)|(Hroom & Hlen & Hc)].
        -- rewrite Hempty in Hsum. cbn in Hsum.
           exists (S q). unfold SCRAPES_PER_CSV in *. lia.
        -- exists q. unfold SCRAPES_PER_CSV in *. lia.
      * cbn [order_book_data set_output set_clock_reads].
        destruct Hstep as [(_ & -> & _)|(Hroom & -> & _)];
          cbn; unfold SCRAPES_PER_CSV in *; lia.
    + cbn [run_loop] in Hrun. unfold bind at 1 in Hrun.
      rewrite Hiter in Hrun. discriminate Hrun.
Qed.

(** X8. When the exchange answers every request, a run of [fuel] iterations
    that ends has flushed once for every [SCRAPES_PER_CSV] snapshots: from a
    buffer of [n] snapshots it leaves [(n + fuel) mod 5] of them after
    [(n + fuel) / 5] flushes. *)
Theorem flush_every_fifth_iteration (E : environment) (fuel : nat)
  (s s' : state) :
  (forall n p, exists body, http_get E n p = Reply body) ->
  length (order_book_data s) < SCRAPES_PER_CSV ->
  run E fuel s = (Returns tt, s') ->
  length (order_book_data s')
    = (length (order_book_data s) + fuel) mod SCRAPES_PER_CSV /\
  flush_count (output s')
    = flush_count (output s)
      + (length (order_book_data s) + fuel) / SCRAPES_PER_CSV.
Proof.
  intros Hreply Hinv Hrun. unfold run, time_now, bind in Hrun.
  apply (run_loop_cadence E fuel _ Hreply) in Hrun as (q & Hsum & Hlt & Hc);
    [|exact Hinv].
  cbn [order_book_data output set_clock_reads] in Hsum, Hc.
  assert (Hq : (length (order_book_data s) + fuel) / SCRAPES_PER_CSV = q).
  { symmetry. apply (Nat.div_unique _ _ _ (length (order_book_data s')));
      [exact Hlt | exact Hsum]. }
  assert (Hr : (length (order_book_data s) + fuel) mod SCRAPES_PER_CSV
               = length (order_book_data s')).
  { symmetry. apply (Nat.mod_unique _ _ q); [exact Hlt | exact Hsum]. }
  rewrite Hq, Hr. auto.
Qed.

Lemma flush_every_fifth_iteration_witness :
  length (order_book_data (snd (run demo_env 12 demo_start))) = 2 /\
  flush_count (output (snd (run demo_env 12 demo_start))) = 2.
Proof.
  apply (flush_every_fifth_iteration demo_env 12 demo_start
           (snd (run demo_env 12 demo_start))).
  - intros n p. eexists. reflexivity.
  - vm_compute. lia.
  - vm_compute. reflexivity.
Defined.

(** ** Replies that are no order book *)

(** X9. An order book without a ['bids'] entry fails when it is written, not
    before: the file of the product is made and emptied, then [KeyError] (or
    [TypeError], when the book is no dictionary) is raised; a flush that
    starts with such a snapshot writes nothing else. *)
Theorem malformed_book_fails_after_open (E : environment)
  (snap : snapshot) (product : string) (book : pyval) (e : exn)
  (s : state) :
  dict_get snap product = Some book ->
  bids_error book = Some e ->
  let opened :=
    set_output (output s ++ [Makedirs (product_dir s product);
                             Open (csv_path E s product)]) s in
  write_product E snap product s = (Raises e, opened) /\
  file_content (csv_path E s product) (output opened) = Some [] /\
  (forall ps buffer s0,
     dict_keys snap = product :: ps ->
     order_book_data s0 = snap :: buffer ->
     s = set_output (output s0 ++ [Flush]) s0 ->
     write_order_book_csv E s0 = (Raises e, opened)).
Proof.
  intros Hbook Herr opened.
  assert (Hrun : write_product E snap product s = (Raises e, opened)).
  { unfold write_product, makedirs, open_w, emit, modify, gets, bind.
    cbn -[csv_path product_dir write_order_type].
    change (csv_path E (set_output _ s) product) with (csv_path E s product).
    rewrite Hbook. unfold write_order_type, py_getitem, bind. cbn [fst].
    subst opened. rewrite <- app_assoc. cbn [app].
    destruct book; cbn in Herr; try (injection Herr as <-; reflexivity).
    destruct (dict_get entries "bids"); [discriminate Herr|].
    injection Herr as <-. reflexivity. }
  split_all.
  - exact Hrun.
  - subst opened. cbn [output set_output]. rewrite file_content_app.
    cbn. rewrite String.eqb_refl. reflexivity.
  - intros ps buffer s0 Hkeys Hbuf Hs.
    unfold write_order_book_csv, emit, modify, gets, bind.
    cbn [order_book_data set_output]. rewrite Hbuf. cbn [for_each].
    unfold bind at 1. unfold write_snapshot at 1. rewrite Hkeys.
    cbn [for_each]. unfold bind at 1. rewrite <- Hs, Hrun. reflexivity.
Qed.

Lemma malformed_book_fails_after_open_witness :
  fst (run message_env 5 demo_start) = Raises KeyError /\
  write_product message_env
    [("BTC-USD", VDict [("message", VStr "NotFound")])] "BTC-USD" demo_start
    = (Raises KeyError,
       set_output [Makedirs "data/BTC-USD"; Open "data/BTC-USD/0.0"]
                  demo_start).
Proof.
  split; [vm_compute; reflexivity|].
  apply (malformed_book_fails_after_open message_env
           [("BTC-USD", VDict [("message", VStr "NotFound")])] "BTC-USD"
           (VDict [("message", VStr "NotFound")]) KeyError demo_start);
    reflexivity.
Defined.

(** ** Rows that are no list, rows written twice *)

Lemma write_rows_fresh_heap (E : environment) (path ot : string)
  (rs : list loc) :
  forall s,
    NoDup rs ->
    exists s',
      for_each (map VList rs) (write_row E path ot) s = (Returns tt, s') /\
      flush_frame s s' /\
      output s' = output s ++
        map (fun r => WriteRow path (VStr (isoformat E " " (current_time s))
                                       :: VStr ot :: heap s !!! r)) rs /\
      (forall l, ~ In l rs -> heap s' !!! l = heap s !!! l) /\
      (forall r, In r rs ->
         heap s' !!! r = VStr (isoformat E " " (current_time s))
                           :: VStr ot :: heap s !!! r).
Proof.
  induction rs as [|r rs IH]; intros s Hnd.
  - exists s. cbn. rewrite app_nil_r.
    split_all; auto using flush_frame_refl. intros r [].
  - apply NoDup_cons in Hnd as [Hr Hnd].
    rewrite list_elem_of_In in Hr.
    cbn [map for_each]. unfold bind at 1. unfold write_row at 1.
    unfold bind at 1. rewrite prepare_list.
    unfold writerow, py_iter, try_except, emit, modify, bind.
    cbn [heap set_heap output set_output]. rewrite lookup_total_insert_eq.
    match goal with
    | |- context [for_each _ _ ?s1] =>
        destruct (IH s1 Hnd) as (s' & Hrun & Hf & Ho & Hh & Hst)
    end.
    exists s'. rewrite Hrun. cbn in Hf, Ho, Hh, Hst. split_all.
    + reflexivity.
    + exact Hf.
    + rewrite Ho, <- app_assoc. cbn. do 2 f_equal.
      apply map_ext_in. intros r' Hr'.
      rewrite lookup_total_insert_ne by (intros ->; contradiction).
      reflexivity.
    + intros l Hl. rewrite Hh by (intros Hin; apply Hl; right; exact Hin).
      rewrite lookup_total_insert_ne
        by (intros ->; apply Hl; left; reflexivity).
      reflexivity.
    + intros r' [<-|Hr'].
      * rewrite Hh by exact Hr. apply lookup_total_insert_eq.
      * rewrite Hst by exact Hr'.
        rewrite lookup_total_insert_ne by (intros ->; contradiction).
        reflexivity.
Qed.

(** X10. A row that is no list ends the file: the list rows before it are
    written, [writerow] raises for it, and neither the rows after it nor the
    asks are written. *)
Theorem bad_row_ends_file (E : environment) (snap : snapshot)
  (product : string) (book : list (string * pyval)) (lbids : loc)
  (good : list loc) (bad : pyval) (rest : list pyval) (s : state) :
  dict_get snap product = Some (VDict book) ->
  dict_get book "bids" = Some (VList lbids) ->
  heap s !!! lbids = map VList good ++ bad :: rest ->
  has_insert bad = false ->
  NoDup (lbids :: good) ->
  exists s',
    write_product E snap product s = (Raises CsvError, s') /\
    file_content (csv_path E s product) (output s') =
      Some (map (fun r => VStr (isoformat E " " (current_time s))
                            :: VStr "b" :: heap s !!! r) good).
Proof.
  intros Hbook Hbids Hrows Hbad Hnd.
  apply NoDup_cons in Hnd as [_ Hnd].
  unfold write_product, makedirs, open_w, emit, modify, gets, bind.
  cbn -[for_each order_types csv_path product_dir write_order_type].
  change (csv_path E (set_output _ s) product) with (csv_path E s product).
  cbn [order_types for_each]. rewrite Hbook. unfold bind at 1.
  unfold write_order_type at 1. unfold py_getitem, py_iter, bind at 1.
  cbn [fst snd heap set_output]. rewrite Hbids. unfold bind at 1.
  change (heap (set_output _ (set_output _ s)) !!! lbids)
    with (heap s !!! lbids).
  rewrite Hrows, for_each_app. unfold bind at 1.
  match goal with
  | |- context [for_each (map VList good) ?body ?s2] =>
      destruct (write_rows_fresh_heap E (csv_path E s product) "b" good s2 Hnd)
        as (s3 & Hrun3 & _ & Ho3 & _)
  end.
  rewrite Hrun3. cbn [for_each]. unfold bind at 1. unfold write_row at 1.
  unfold bind at 1. rewrite prepare_other by exact Hbad.
  rewrite writerow_none.
  exists s3. split; [reflexivity|].
  rewrite Ho3. cbn [output set_output current_time].
  rewrite <- !app_assoc, !file_content_app.
  cbn [fold_left fs_step app]. rewrite String.eqb_refl.
  rewrite <- (map_map (fun r => VStr (isoformat E " " (current_time s))
                                  :: VStr "b" :: heap s !!! r)
                (WriteRow (csv_path E s product)) good).
  rewrite file_content_rows. reflexivity.
Qed.

Lemma bad_row_ends_file_witness :
  exists s',
    write_product demo_env mixed_snapshot "BTC-USD" mixed_state
      = (Raises CsvError, s') /\
    file_content "data/BTC-USD/0.0" (output s') =
      Some [[VStr "1970-01-01 00:00:00+00:00"; VStr "b";
             VStr "100.00"; VStr "0.5"; VInt 1]].
Proof.
  destruct (bad_row_ends_file demo_env mixed_snapshot "BTC-USD"
              [("bids", VList 2); ("asks", VList 4)] 2 [0] (VStr "oops")
              [VList 1] mixed_state)
    as (s' & Hrun & Hcontent).
  - reflexivity.
  - reflexivity.
  - vm_compute. reflexivity.
  - reflexivity.
  - apply (bool_decide_unpack _). vm_compute. exact I.
  - exists s'. split; [exact Hrun | exact Hcontent].
Defined.

Lemma write_product_fresh (E : environment) (snap : snapshot)
  (product : string) (book : list (string * pyval)) (lbids lasks : loc)
  (bids asks : list loc) (s : state) :
  dict_get snap product = Some (VDict book) ->
  dict_get book "bids" = Some (VList lbids) ->
  dict_get book "asks" = Some (VList lasks) ->
  heap s !!! lbids = map VList bids ->
  heap s !!! lasks = map VList asks ->
  NoDup (lbids :: lasks :: bids ++ asks) ->
  let date := VStr (isoformat E " " (current_time s)) in
  exists s',
    write_product E snap product s = (Returns tt, s') /\
    flush_frame s s' /\
    file_content (csv_path E s product) (output s') =
      Some (map (fun r => date :: VStr "b" :: heap s !!! r) bids ++
            map (fun r => date :: VStr "a" :: heap s !!! r) asks) /\
    (forall r, In r bids -> heap s' !!! r = date :: VStr "b" :: heap s !!! r) /\
    (forall r, In r asks -> heap s' !!! r = date :: VStr "a" :: heap s !!! r) /\
    (forall l, ~ In l (bids ++ asks) -> heap s' !!! l = heap s !!! l).
Proof.
  intros Hbook Hbids Hasks Hlb Hla Hnd date.
  apply NoDup_cons in Hnd as [Hlb_fresh Hnd].
  apply NoDup_cons in Hnd as [Hla_fresh Hnd].
  apply NoDup_app in Hnd as (Hnb & Hdisj & Hna).
  rewrite list_elem_of_In in Hla_fresh.
  unfold write_product, makedirs, open_w, emit, modify, gets, bind.
  cbn -[for_each order_types csv_path product_dir write_order_type].
  change (csv_path E (set_output _ s) product) with (csv_path E s product).
  cbn [order_types for_each]. rewrite Hbook. unfold bind at 1.
  unfold write_order_type at 1. unfold py_getitem, py_iter, bind at 1.
  cbn [fst snd]. rewrite Hbids. unfold bind at 1.
  change (heap (set_output _ (set_output _ s)) !!! lbids)
    with (heap s !!! lbids).
  rewrite Hlb.
  match goal with
  | |- context [for_each (map VList bids) ?body ?s2] =>
      destruct (write_rows_fresh_heap E (csv_path E s product) "b" bids s2 Hnb)
        as (s3 & Hrun3 & Hf3 & Ho3 & Hh3 & Hst3)
  end.
  rewrite Hrun3. unfold bind at 1.
  unfold write_order_type at 1. unfold py_getitem, py_iter, bind at 1.
  cbn [fst snd]. rewrite Hasks. unfold bind at 1.
  cbn [heap set_output current_time output] in Ho3, Hh3, Hst3.
  assert (Hla3 : heap s3 !!! lasks = map VList asks).
  { rewrite Hh3; [exact Hla|].
    intros Hin. apply Hla_fresh, in_or_app. left. exact Hin. }
  rewrite Hla3.
  destruct (write_rows_fresh_heap E (csv_path E s product) "a" asks s3 Hna)
    as (s4 & Hrun4 & Hf4 & Ho4 & Hh4 & Hst4).
  rewrite Hrun4. unfold ret.
  assert (Ht3 : current_time s3 = current_time s) by (apply Hf3).
  assert (Hold : forall r, In r asks -> heap s3 !!! r = heap s !!! r).
  { intros r Hr. apply Hh3. intros Hin.
    apply (Hdisj r); apply list_elem_of_In; assumption. }
  rewrite Ht3 in Ho4, Hst4.
  exists s4. split_all.
  - reflexivity.
  - eapply flush_frame_trans; [|exact Hf4].
    eapply flush_frame_trans; [|exact Hf3].
    unfold flush_frame. cbn. split_all; reflexivity.
  - rewrite Ho4, Ho3.
    rewrite (map_ext_in _ (fun r => WriteRow (csv_path E s product)
                                      (date :: VStr "a" :: heap s !!! r)) asks)
      by (intros r Hr; rewrite Hold by exact Hr; reflexivity).
    rewrite <- !app_assoc. rewrite !file_content_app.
    cbn [fold_left fs_step app]. rewrite String.eqb_refl.
    rewrite <- (map_map (fun r => date :: VStr "b" :: heap s !!! r)
                  (WriteRow (csv_path E s product)) bids).
    rewrite <- (map_map (fun r => date :: VStr "a" :: heap s !!! r)
                  (WriteRow (csv_path E s product)) asks).
    rewrite <- map_app, file_content_rows. reflexivity.
  - intros r Hr. rewrite Hh4.
    + apply Hst3, Hr.
    + intros Hin. apply (Hdisj r); apply list_elem_of_In; assumption.
  - intros r Hr. rewrite Hst4 by exact Hr. rewrite Hold by exact Hr.
    reflexivity.
  - intros l Hl. rewrite Hh4, Hh3; [reflexivity | |];
      intros Hin; apply Hl, in_or_app; auto.
Qed.

(** X11. Writing does not leave the buffered rows as they were: each row
    keeps the date and the flag it was written with. A snapshot written a
    second time, as when [write_order_book_csv] is called on a buffer that
    was not emptied, gives rows that carry them twice. *)
Theorem second_write_stamps_twice (E : environment) (snap : snapshot)
  (product : string) (book : list (string * pyval)) (lbids lasks : loc)
  (bids asks : list loc) (s : state) :
  dict_get snap product = Some (VDict book) ->
  dict_get book "bids" = Some (VList lbids) ->
  dict_get book "asks" = Some (VList lasks) ->
  heap s !!! lbids = map VList bids ->
  heap s !!! lasks = map VList asks ->
  NoDup (lbids :: lasks :: bids ++ asks) ->
  let date := VStr (isoformat E " " (current_time s)) in
  exists s1 s2,
    write_product E snap product s = (Returns tt, s1) /\
    (forall r, In r bids -> heap s1 !!! r = date :: VStr "b" :: heap s !!! r) /\
    (forall r, In r asks -> heap s1 !!! r = date :: VStr "a" :: heap s !!! r) /\
    write_product E snap product s1 = (Returns tt, s2) /\
    file_content (csv_path E s product) (output s2) =
      Some (map (fun r => date :: VStr "b" :: date :: VStr "b" :: heap s !!! r)
                bids ++
            map (fun r => date :: VStr "a" :: date :: VStr "a" :: heap s !!! r)
                asks).
Proof.
  intros Hbook Hbids Hasks Hlb Hla Hnd date.
  destruct (write_product_fresh E snap product book lbids lasks bids asks s
              Hbook Hbids Hasks Hlb Hla Hnd)
    as (s1 & Hrun1 & Hf1 & _ & Hb1 & Ha1 & Hh1).
  assert (Hfresh : ~ In lbids (bids ++ asks) /\ ~ In lasks (bids ++ asks)).
  { apply NoDup_cons in Hnd as [Hlb_fresh Hnd].
    apply NoDup_cons in Hnd as [Hla_fresh _].
    rewrite list_elem_of_In in Hla_fresh.
    split; [|exact Hla_fresh].
    intros Hin. apply Hlb_fresh. right. apply list_elem_of_In, Hin. }
  destruct Hfresh as [Hlb_fresh Hla_fresh].
  destruct (write_product_fresh E snap product book lbids lasks bids asks s1
              Hbook Hbids Hasks)
    as (s2 & Hrun2 & _ & Hcontent & _).
  - rewrite Hh1 by exact Hlb_fresh. exact Hlb.
  - rewrite Hh1 by exact Hla_fresh. exact Hla.
  - exact Hnd.
  - assert (Ht : current_time s1 = current_time s) by (apply Hf1).
    assert (Hpath : csv_path E s1 product = csv_path E s product).
    { destruct Hf1 as (_ & _ & _ & Hd & _).
      unfold csv_path, product_dir, csv_filename. rewrite Ht, Hd.
      reflexivity. }
    rewrite Hpath, Ht in Hcontent.
    exists s1, s2. split_all; auto.
    rewrite Hcontent. f_equal. f_equal.
    + apply map_ext_in. intros r Hr. rewrite Hb1 by exact Hr. reflexivity.
    + apply map_ext_in. intros r Hr. rewrite Ha1 by exact Hr. reflexivity.
Qed.

Lemma second_write_stamps_twice_witness :
  exists s1 s2,
    write_product demo_env demo_snapshot "BTC-USD" demo_buffered
      = (Returns tt, s1) /\
    write_product demo_env demo_snapshot "BTC-USD" s1 = (Returns tt, s2) /\
    file_content "data/BTC-USD/240.0" (output s2) =
      Some [[VStr "1970-01-01 00:04:00+00:00"; VStr "b";
             VStr "1970-01-01 00:04:00+00:00"; VStr "b";
             VStr "103.00"; VStr "0.5"; VInt 1];
            [VStr "1970-01-01 00:04:00+00:00"; VStr "a";
             VStr "1970-01-01 00:04:00+00:00"; VStr "a";
             VStr "203.00"; VStr "0.25"; VInt 2]].
Proof.
  destruct (second_write_stamps_twice demo_env demo_snapshot "BTC-USD"
              [("sequence", VInt 3); ("bids", VList 13); ("asks", VList 15)]
              13 15 [12] [14] demo_buffered)
    as (s1 & s2 & Hrun1 & _ & _ & Hrun2 & Hcontent).
  - reflexivity.
  - reflexivity.
  - reflexivity.
  - vm_compute. reflexivity.
  - vm_compute. reflexivity.
  - apply (bool_decide_unpack _). vm_compute. exact I.
  - exists s1, s2. split_all; [exact Hrun1 | exact Hrun2 | exact Hcontent].
Defined.

(** ** Where the files go *)




(** ** The time of an iteration *)

(** X13. Whatever an iteration does, whether it stores, flushes, skips or
    raises, it reads the clock once, at its start, and leaves that time in
    [current_time]; the tracked products and [csv_directory] are as
    before. *)
Theorem iteration_sets_current_time (E : environment) (s : state) :
  let s' := snd (_run_iteration E s) in
  current_time s' = utcnow E (clock_reads s) /\
  clock_reads s' = S (clock_reads s) /\
  products s' = products s /\
  csv_directory s' = csv_directory s.
Proof.
  cbn zeta. destruct (_run_iteration E s) as [r s'] eqn:Hrun. cbn [snd].
  unfold _run_iteration, bind at 1 in Hrun.
  destruct (start_iteration E s) as [[[]|e] s0] eqn:Hstart;
    [|discriminate Hstart].
  assert (Hs0 : s0 = set_current_time (utcnow E (clock_reads s))
                       (set_clock_reads (S (clock_reads s)) s)).
  { injection Hstart as <-. reflexivity. }
  unfold gets, bind in Hrun.
  pose proof (fetch_products_frame E (products s0) [] s0) as Hf.
  destruct (fetch_products E (products s0) [] s0) as [rf s1].
  cbn [snd] in Hf.
  destruct Hf as (Hp & _ & Ht & Hd & Hc & _).
  rewrite Hs0 in Hp, Ht, Hd, Hc. cbn in Hp, Ht, Hd, Hc.
  destruct rf as [[d|stop]|e];
    try (injection Hrun as <- <-; auto; fail).
  rewrite store_unfold in Hrun. cbn zeta in Hrun.
  match type of Hrun with
  | context [if ?full then _ else _] => destruct full
  end.
  - destruct (write_order_book_csv_local E
                (set_order_book_data (order_book_data s1 ++ [d]) s1))
      as ((Hp2 & _ & Ht2 & Hd2 & _ & _ & Hc2) & _).
    destruct (write_order_book_csv E
                (set_order_book_data (order_book_data s1 ++ [d]) s1))
      as [[[]|e] s2]; injection Hrun as <- <-;
      cbn in *; split_all; congruence.
  - injection Hrun as <- <-. cbn. auto.
Qed.
